(** * An in-memory table store: [Dataset] and [DataManager]

    Shallow embedding of [src/untitled folder/Data code.py].  The program
    keeps one pandas [DataFrame] in [Dataset.data] and [DataManager] reads,
    extends, edits, shrinks and filters it.

    Modelling choices.

    - A cell is an integer, a text, or absent (pandas' NaN).  A row is a
      finite map from column names to the cells that are present, so an
      absent cell is a key without a binding.
    - A column has a dtype: [int64], [float64] or [object].  A [float64]
      column holds integers as floating-point numbers, so an integer
      written to it, or an [int64] column turned into [float64] because
      NaN joins it, is rounded to the nearest float64 ([float64_of_int]);
      an [object] column holds Python values as they are.  Numbers with a
      fractional part are left out.
    - A [DataFrame] carries its ordered column names, their dtypes and its
      rows, each row paired with its row label.  pandas addresses rows by
      label in [.at] and in [drop]; labels and positions agree only while
      the labels are [0 .. N-1].
    - Python exceptions are results [Raise e]; the methods of [DataManager]
      run in a state-and-exception monad over the [World] (the dataset and
      what was printed).
    - The values a caller hands to [add_data] and [edit_data] are integers
      or texts, as [DriverClass.process_selection] builds them with [int]
      and [input].
    - The pandas operations follow pandas 2: [.at] on a missing label or
      column enlarges the frame, [drop] on a missing label raises
      [KeyError], [concat] joins the columns of its arguments. *)

From stdpp Require Import gmap strings list fin_maps.

Local Open Scope string_scope.

(** ** Values and Python dictionaries *)

Inductive value : Type :=
| VInt (z : Z)
| VStr (s : string).

#[global] Instance value_eq_dec : EqDecision value.
Proof. solve_decision. Defined.

(** Python's [==] on the two kinds of scalar: an [int] and a [str] never
    compare equal. *)
Definition py_eq (a b : value) : bool :=
  match a, b with
  | VInt x, VInt y => bool_decide (x = y)
  | VStr s, VStr t => bool_decide (s = t)
  | _, _ => false
  end.

(** A cell of a frame: [None] is NaN. *)
Definition cell : Type := option value.

(** ** Column dtypes *)

Inductive dtype : Type :=
| int64
| float64
| object.

#[global] Instance dtype_eq_dec : EqDecision dtype.
Proof. solve_decision. Defined.

(** The integers an [int64] column can hold. *)
Definition in_int64 (z : Z) : Prop := (- 2 ^ 63 ≤ z < 2 ^ 63)%Z.

#[global] Instance in_int64_dec (z : Z) : Decision (in_int64 z).
Proof. unfold in_int64. apply _. Defined.

(** The float64 nearest to an integer, as an integer: up to 2^53 in
    magnitude the integer itself, beyond that the nearest number with 53
    significant bits, a tie going to the even one. *)
Definition float64_of_int (z : Z) : Z :=
  let a := Z.abs z in
  if (a <? 2 ^ 53)%Z then z
  else
    let e := (Z.log2 a - 52)%Z in
    let q := (a / 2 ^ e)%Z in
    let r := (a mod 2 ^ e)%Z in
    let half := (2 ^ (e - 1))%Z in
    let q' := if (half <? r)%Z || ((r =? half)%Z && Z.odd q) then (q + 1)%Z else q in
    (Z.sgn z * (q' * 2 ^ e))%Z.

(** [float(z)] exists: the rounded integer is below 2^1024. *)
Definition float64_finite (z : Z) : Prop :=
  (Z.abs (float64_of_int z) < 2 ^ 1024)%Z.

#[global] Instance float64_finite_dec (z : Z) : Decision (float64_finite z).
Proof. unfold float64_finite. apply _. Defined.

(** The value a column of dtype [t] holds for [v]: a [float64] column
    holds the float nearest to an integer. *)
Definition cast (t : dtype) (v : value) : value :=
  match t, v with
  | float64, VInt z => VInt (float64_of_int z)
  | _, _ => v
  end.

(** The dtype of a one-element column built from a Python value: [int64]
    for an integer that fits, [object] otherwise (for the integers from
    2^63 to 2^64-1 pandas has [uint64], which is not modelled). *)
Definition dtype_of_value (v : value) : dtype :=
  match v with
  | VInt z => if decide (in_int64 z) then int64 else object
  | VStr _ => object
  end.

(** The common dtype of two columns stacked on each other. *)
Definition common_type (s t : dtype) : dtype :=
  match s, t with
  | int64, int64 => int64
  | object, _ | _, object => object
  | _, _ => float64
  end.

(** The dtype a column takes when NaN joins it. *)
Definition hold_na (t : dtype) : dtype :=
  match t with
  | int64 => float64
  | _ => t
  end.

(** [x == e] for an element [e] of an array of dtype [t]: against a
    [float64] element an integer is compared as a float. *)
Definition py_eq_element (t : dtype) (x : value) (e : cell) : bool :=
  match e with
  | Some y => py_eq (cast t x) (cast t y)
  | None => false
  end.

(** [x in list(values)] for the values of a column: NaN equals nothing. *)
Definition py_in (x : value) (values : dtype * list cell) : bool :=
  existsb (py_eq_element values.1 x) values.2.

(** A Python [dict] with text keys, in insertion order. *)
Definition dict : Type := list (string * value).

Fixpoint dict_get (k : string) (d : dict) : option value :=
  match d with
  | [] => None
  | (k', v) :: d' => if decide (k = k') then Some v else dict_get k d'
  end.

Definition dict_keys (d : dict) : list string := d.*1.

(** ** Exceptions and results *)

Inductive exn : Type :=
| KeyError (key : string)
| LabelError (label : Z)
| TypeError
| OverflowError
| UndefinedVariableError (name : string).

Inductive result (A : Type) : Type :=
| Ok (a : A)
| Raise (e : exn).
Arguments Ok {A} a.
Arguments Raise {A} e.

Definition result_bind {A B} (r : result A) (k : A → result B) : result B :=
  match r with
  | Ok a => k a
  | Raise e => Raise e
  end.

Fixpoint result_mapM {A B} (f : A → result B) (l : list A) : result (list B) :=
  match l with
  | [] => Ok []
  | x :: l' =>
      result_bind (f x) (λ y,
      result_bind (result_mapM f l') (λ ys, Ok (y :: ys)))
  end.

(** [d[k]] *)
Definition dict_getitem (d : dict) (k : string) : result value :=
  match dict_get k d with
  | Some v => Ok v
  | None => Raise (KeyError k)
  end.

(** ** The part of pandas the program uses *)

Module pd.

Record DataFrame : Type := mkDataFrame {
  columns : list string;
  dtypes : gmap string dtype;
  rows : list (Z * gmap string value)
}.

(** [df.index] *)
Definition index (df : DataFrame) : list Z := (rows df).*1.

(** [df[c].dtype] *)
Definition dtype_of (df : DataFrame) (c : string) : dtype :=
  default object (dtypes df !! c).

(** The cell of a row in column [c]. *)
Definition cell_of (c : string) (r : Z * gmap string value) : cell := r.2 !! c.

(** [RangeIndex(n)] *)
Definition range_index (n : nat) : list Z := seqZ 0 (Z.of_nat n).

(** [df[c].values]: the dtype and the cells of column [c], [KeyError] when
    the frame has no such column. *)
Definition getitem_values (df : DataFrame) (c : string)
  : result (dtype * list cell) :=
  if decide (c ∈ columns df) then Ok (dtype_of df c, cell_of c <$> rows df)
  else Raise (KeyError c).

(** [pd.DataFrame([d])]: one row labelled 0, the columns are the keys of
    [d] in their order, each with the dtype of its value. *)
Definition DataFrame_of_record (d : dict) : DataFrame :=
  {| columns := dict_keys d;
     dtypes := dtype_of_value <$> list_to_map d;
     rows := [(0%Z, list_to_map d)] |}.

(** Outer join of two column lists, the order of the first kept. *)
Definition union_columns (a b : list string) : list string :=
  a ++ filter (λ c, c ∉ a) b.

(** [df.reset_index(drop=True)]: the rows keep their order and are
    relabelled [0 .. N-1]. *)
Definition reset_index_drop (df : DataFrame) : DataFrame :=
  {| columns := columns df;
     dtypes := dtypes df;
     rows := zip (range_index (length (rows df))) (rows df).*2 |}.

(** The cells of a row as columns of the dtypes [t] hold them. *)
Definition recast (t : string → dtype) (m : gmap string value)
  : gmap string value :=
  map_imap (λ c v, Some (cast (t c) v)) m.

(** The dtype of column [c] after [a] and [b] are stacked: the common
    dtype where both have the column, otherwise the dtype of the one that
    has it, made to hold the NaN of the other. *)
Definition concat_dtype (a b : DataFrame) (c : string) : dtype :=
  if decide (c ∈ columns a) then
    if decide (c ∈ columns b) then common_type (dtype_of a c) (dtype_of b c)
    else hold_na (dtype_of a c)
  else hold_na (dtype_of b c).

(** [pd.concat([a, b], ignore_index=True)] *)
Definition concat_ignore_index (a b : DataFrame) : DataFrame :=
  let cols := union_columns (columns a) (columns b) in
  reset_index_drop
    {| columns := cols;
       dtypes := list_to_map ((λ c, (c, concat_dtype a b c)) <$> cols);
       rows := (λ r, (r.1, recast (concat_dtype a b) r.2))
                 <$> (rows a ++ rows b)%list |}.

Definition add_column (c : string) (cols : list string) : list string :=
  if decide (c ∈ cols) then cols else cols ++ [c].

(** [df.reindex] with one more label [i]: the new row is all NaN, so every
    column takes a dtype that holds NaN. *)
Definition reindex_append (df : DataFrame) (i : Z) : DataFrame :=
  {| columns := columns df;
     dtypes := hold_na <$> dtypes df;
     rows := (((λ r, (r.1, recast (λ c, hold_na (dtype_of df c)) r.2)) <$> rows df)
              ++ [(i, ∅)])%list |}.

(** A column [c] that the frame does not have is appended, all NaN. *)
Definition with_column (df : DataFrame) (c : string) : DataFrame :=
  if decide (c ∈ columns df) then df
  else {| columns := (columns df ++ [c])%list;
          dtypes := <[c := float64]> (dtypes df);
          rows := rows df |}.

(** The cell in column [c] of the rows labelled [i] becomes [v]. *)
Definition write (df : DataFrame) (t : dtype) (i : Z) (c : string) (v : value)
  : DataFrame :=
  {| columns := columns df;
     dtypes := <[c := t]> (dtypes df);
     rows := (λ r, if decide (r.1 = i) then (r.1, <[c := v]> r.2) else r)
               <$> rows df |}.

(** Setting one cell of an existing row and column.  An [int64] column
    takes an integer that fits and refuses one that does not; a [float64]
    column takes the float nearest to an integer; a text makes a numeric
    column an [object] column; an [object] column takes any value. *)
Definition set_cell (df : DataFrame) (i : Z) (c : string) (v : value)
  : result DataFrame :=
  match dtype_of df c, v with
  | int64, VInt z =>
      if decide (in_int64 z) then Ok (write df int64 i c v)
      else Raise OverflowError
  | float64, VInt z =>
      if decide (float64_finite z) then
        Ok (write df float64 i c (VInt (float64_of_int z)))
      else Raise OverflowError
  | _, _ => Ok (write df object i c v)
  end.

(** [df.at[i, c] = v].  With the label and the column present the cell is
    overwritten in place ([_set_value]); a missing label or column makes
    pandas fall back to [df.loc[i, c] = v], which enlarges the frame: a
    new row labelled [i] is appended to the rows, a new column is appended
    to the columns, every other new cell being NaN. *)
Definition at_set (df : DataFrame) (i : Z) (c : string) (v : value)
  : result DataFrame :=
  let df1 := if decide (i ∈ index df) then df else reindex_append df i in
  set_cell (with_column df1 c) i c v.

(** [df.drop(i, axis=0)]: the rows labelled [i] are removed; a label that
    is not in the index raises [KeyError]. *)
Definition drop (df : DataFrame) (i : Z) : result DataFrame :=
  if decide (i ∈ index df) then
    Ok {| columns := columns df;
          dtypes := dtypes df;
          rows := filter (λ r, r.1 ≠ i) (rows df) |}
  else Raise (LabelError i).

(** Rows selected by a boolean mask, labels kept. *)
Fixpoint select {A} (mask : list bool) (l : list A) : list A :=
  match mask, l with
  | b :: mask', x :: l' => if b then x :: select mask' l' else select mask' l'
  | _, _ => []
  end.

(** A comparison of a cell with an integer literal: NaN compares false,
    a text against an [int] is a [TypeError]. *)
Definition compare_cell (op : Z → bool) (x : cell) : result bool :=
  match x with
  | None => Ok false
  | Some (VInt z) => Ok (op z)
  | Some (VStr _) => Raise TypeError
  end.

(** [df.query('<c> <op> <literal>')]: the name [c] must be a column, the
    comparison is evaluated over the whole column, the rows where it
    holds are returned. *)
Definition query_compare (df : DataFrame) (c : string) (op : Z → bool)
  : result DataFrame :=
  if decide (c ∈ columns df) then
    result_bind (result_mapM (compare_cell op) (cell_of c <$> rows df)) (λ mask,
    Ok {| columns := columns df; dtypes := dtypes df;
          rows := select mask (rows df) |})
  else Raise (UndefinedVariableError c).

(** [df.query('<c>.notnull()')] *)
Definition query_notnull (df : DataFrame) (c : string) : result DataFrame :=
  if decide (c ∈ columns df) then
    let mask := (λ x : cell, bool_decide (is_Some x)) <$> (cell_of c <$> rows df) in
    Ok {| columns := columns df; dtypes := dtypes df;
          rows := select mask (rows df) |}
  else Raise (UndefinedVariableError c).

(** Membership of a cell in a list of text literals ([isin]). *)
Definition cell_isin (texts : list string) (x : cell) : bool :=
  match x with
  | Some (VStr s) => bool_decide (s ∈ texts)
  | _ => false
  end.

(** [df.query('<c> in [<texts>]')] *)
Definition query_isin (df : DataFrame) (c : string) (texts : list string)
  : result DataFrame :=
  if decide (c ∈ columns df) then
    let mask := cell_isin texts <$> (cell_of c <$> rows df) in
    Ok {| columns := columns df; dtypes := dtypes df;
          rows := select mask (rows df) |}
  else Raise (UndefinedVariableError c).

End pd.

(** ** The world: the dataset and the terminal *)

(** [Dataset]: the frame read from the CSV file.  The four column
    accessors [date], [revenue], [product] and [discounts] set up by
    [__init__] are never read by [DataManager] and are left out. *)
Record Dataset : Type := mkDataset {
  data : pd.DataFrame
}.

Record World : Type := mkWorld {
  dataset : Dataset;
  stdout : list string
}.

(** State and exceptions: a method takes the world, returns a value or
    raises, and hands the world back. *)
Definition M (A : Type) : Type := World → result A * World.

#[global] Instance M_ret : MRet M := λ A a w, (Ok a, w).
#[global] Instance M_bind : MBind M := λ A B k m w,
  match m w with
  | (Ok a, w') => k a w'
  | (Raise e, w') => (Raise e, w')
  end.

Definition lift {A} (r : result A) : M A := λ w, (r, w).

(** [self.dataset.data] read and assigned. *)
Definition load_data : M pd.DataFrame := λ w, (Ok (data (dataset w)), w).
Definition store_data (df : pd.DataFrame) : M unit := λ w,
  (Ok tt, {| dataset := {| data := df |}; stdout := stdout w |}).

Definition print (line : string) : M unit := λ w,
  (Ok tt, {| dataset := dataset w; stdout := stdout w ++ [line] |}).

(** [Dataset.get_data] *)
Definition get_data : M pd.DataFrame := load_data.

(** ** [DataManager] *)

(** [read_data] *)
Definition read_data : M pd.DataFrame := get_data.

(** [add_data] *)
Definition add_data (new_row_data : dict) : M string :=
  let new_row_df := pd.DataFrame_of_record new_row_data in
  d ← lift (dict_getitem new_row_data "date");
  df ← load_data;
  dates ← lift (pd.getitem_values df "date");
  if py_in d dates then
    mret "Duplicate found. Data couldn't be added."
  else
    df ← load_data;
    store_data (pd.concat_ignore_index df new_row_df);;
    mret "Data added successfully.".

(** [edit_data]: the frame is updated in place.  When pandas refuses the
    value the exception leaves the method; no caller catches it, and the
    world handed back with it is the one before the call. *)
Definition edit_data (index : Z) (column : string) (new_value : value) : M string :=
  df ← load_data;
  edited ← lift (pd.at_set df index column new_value);
  store_data edited;;
  mret "Data edited successfully.".

(** [delete_data] *)
Definition delete_data (index : Z) : M string :=
  df ← load_data;
  dropped ← lift (pd.drop df index);
  store_data (pd.reset_index_drop dropped);;
  mret "Data deleted successfully.".

(** [analyze_data] hands the frame to pandas' [describe], whose answers
    are floating-point means, deviations and percentiles; it is not
    embedded. *)

(** [filter_data]: [None] is Python's [None]. *)
Definition filter_data (choice : Z) : M (option pd.DataFrame) :=
  if decide (choice = 1%Z) then
    df ← load_data;
    filtered_data ← lift (pd.query_compare df "IT" (λ x, (30000 <=? x)%Z));
    mret (Some filtered_data)
  else if decide (choice = 2%Z) then
    df ← load_data;
    filtered_data ← lift (pd.query_compare df "Marketing" (λ x, (x <? 22000)%Z));
    mret (Some filtered_data)
  else if decide (choice = 3%Z) then
    df ← load_data;
    filtered_data ← lift (pd.query_notnull df "Finance");
    mret (Some filtered_data)
  else if decide (choice = 4%Z) then
    df ← load_data;
    filtered_data ← lift (pd.query_compare df "Operations"
                            (λ x, (25000 <=? x)%Z && (x <=? 30000)%Z));
    mret (Some filtered_data)
  else if decide (choice = 5%Z) then
    df ← load_data;
    filtered_data ← lift (pd.query_isin df "Month" ["January 2023"; "March 2023"]);
    mret (Some filtered_data)
  else
    print "Invalid choice. No filtering applied.";;
    mret None.

(** ** A small table to run the methods on *)

Definition row0 : gmap string value :=
  list_to_map [("date", VStr "2023-01-31"); ("Month", VStr "January 2023");
               ("IT", VInt 29000); ("Marketing", VInt 21000)].
Definition row1 : gmap string value :=
  list_to_map [("date", VStr "2023-02-28"); ("Month", VStr "February 2023");
               ("IT", VInt 30000); ("Marketing", VInt 22000)].
Definition row2 : gmap string value :=
  list_to_map [("date", VStr "2023-03-31"); ("Month", VStr "March 2023");
               ("IT", VInt 31000)].

(** The third row has no [Marketing] value, so that column is [float64]. *)
Definition df0 : pd.DataFrame :=
  {| pd.columns := ["date"; "Month"; "IT"; "Marketing"];
     pd.dtypes := list_to_map [("date", object); ("Month", object);
                               ("IT", int64); ("Marketing", float64)];
     pd.rows := [(0%Z, row0); (1%Z, row1); (2%Z, row2)] |}.

Definition w0 : World := {| dataset := {| data := df0 |}; stdout := [] |}.

(** ** What the statements observe *)

(** The cell at row position [p] and column [c] ([df.iat]); [None] when
    the table has no row at that position. *)
Definition iat (df : pd.DataFrame) (p : nat) (c : string) : option cell :=
  pd.cell_of c <$> pd.rows df !! p.

(** A cell of a numeric column: an integer or NaN, never a text. *)
Definition numeric_cell (x : cell) : Prop :=
  match x with
  | Some (VStr _) => False
  | _ => True
  end.

#[global] Instance numeric_cell_dec (x : cell) : Decision (numeric_cell x).
Proof. destruct x as [[z|s]|]; simpl; apply _. Defined.

(** What a comparison answers on a numeric cell. *)
Definition holds_on_cell (op : Z → bool) (x : cell) : bool :=
  match x with
  | Some (VInt z) => op z
  | _ => false
  end.

(** The row has an [IT] cell and its value is at least 30000. *)
Definition IT_at_least_30000 (r : Z * gmap string value) : Prop :=
  match pd.cell_of "IT" r with
  | Some (VInt z) => (30000 ≤ z)%Z
  | _ => False
  end.

#[global] Instance IT_at_least_30000_dec r : Decision (IT_at_least_30000 r).
Proof.
  unfold IT_at_least_30000. destruct (pd.cell_of "IT" r) as [[z|s]|]; apply _.
Defined.

(** The three requests that change the table. *)
Inductive mutation : Type :=
| InsertRow (new_row_data : dict)
| UpdateCell (index : Z) (column : string) (new_value : value)
| DeleteRow (index : Z).

Definition apply_mutation (o : mutation) : M string :=
  match o with
  | InsertRow new_row_data => add_data new_row_data
  | UpdateCell index column new_value => edit_data index column new_value
  | DeleteRow index => delete_data index
  end.

(** The frame has the columns [cols] and no row has a cell outside them. *)
Definition schema_holds (cols : list string) (df : pd.DataFrame) : Prop :=
  pd.columns df = cols ∧
  Forall (λ m : gmap string value, dom m ⊆ (list_to_set cols : gset string))
    (pd.rows df).*2.

(** The request names no column outside [cols]. *)
Definition within_schema (cols : list string) (o : mutation) : Prop :=
  match o with
  | InsertRow new_row_data => Forall (λ k, k ∈ cols) (dict_keys new_row_data)
  | UpdateCell _ column _ => column ∈ cols
  | DeleteRow _ => True
  end.

(** An integer that every dtype holds and compares exactly: at most 2^53
    in magnitude.  A text is held exactly by the only dtype that takes
    it. *)
Definition safe_value (v : value) : Prop :=
  match v with
  | VInt z => (Z.abs z ≤ 2 ^ 53)%Z
  | VStr _ => True
  end.

#[global] Instance safe_value_dec (v : value) : Decision (safe_value v).
Proof. destruct v; simpl; apply _. Defined.

(** Every cell of the table is such a value. *)
Definition safe_frame (df : pd.DataFrame) : Prop :=
  Forall (λ r : Z * gmap string value, map_Forall (λ _ v, safe_value v) r.2)
    (pd.rows df).

(** Every value of the mapping is such a value. *)
Definition safe_dict (d : dict) : Prop :=
  Forall (λ kv : string * value, safe_value kv.2) d.

(** A table whose [int64] column [IT] holds an integer above 2^53. *)
Definition big_row0 : gmap string value :=
  list_to_map [("date", VStr "2023-01-31"); ("IT", VInt 9007199254740993)].
Definition big_row1 : gmap string value :=
  list_to_map [("date", VStr "2023-02-28"); ("IT", VInt 30000)].

Definition big_df : pd.DataFrame :=
  {| pd.columns := ["date"; "IT"];
     pd.dtypes := list_to_map [("date", object); ("IT", int64)];
     pd.rows := [(0%Z, big_row0); (1%Z, big_row1)] |}.

Definition big_w : World := {| dataset := {| data := big_df |}; stdout := [] |}.

(** ** The start of the program *)

(** [Dataset.__init__], from the frame [pd.read_csv] returned: the four
    column accessors are read in the order [date], [revenue], [product],
    [discounts], each a [KeyError] when the column is missing. *)
Definition Dataset_init (read_csv : pd.DataFrame) : result Dataset :=
  let data := read_csv in
  result_bind (pd.getitem_values data "date") (λ _,
  result_bind (pd.getitem_values data "revenue") (λ _,
  result_bind (pd.getitem_values data "product") (λ _,
  result_bind (pd.getitem_values data "discounts") (λ _,
  Ok {| data := data |})))).

(** The columns [Dataset.__init__] reads. *)
Definition required_columns : list string :=
  ["date"; "revenue"; "product"; "discounts"].

(** A [DataManager] instance holds the dataset it was created with; [D]
    is the type of references to datasets. *)
Record DataManager (D : Type) : Type := mkDataManager {
  managed : D
}.
Arguments mkDataManager {D} managed.
Arguments managed {D} _.

(** [DataManager.__new__]: the class attribute [_instance] is read and,
    when it is [None], set; the instance is returned with the new
    [_instance]. *)
Definition DataManager_new {D} (dataset : D) (_instance : option (DataManager D))
  : DataManager D * option (DataManager D) :=
  match _instance with
  | None =>
      let created := {| managed := dataset |} in
      (created, Some created)
  | Some held => (held, Some held)
  end.

(** [DataManager(d)] for each [d] of a list in turn; the managers
    returned, in order. *)
Fixpoint construct_all {D} (datasets : list D) (_instance : option (DataManager D))
  : list (DataManager D) :=
  match datasets with
  | [] => []
  | d :: rest =>
      let '(m, _instance') := DataManager_new d _instance in
      m :: construct_all rest _instance'
  end.

(** ** Further observations *)

(** No row has a cell outside the columns of its frame. *)
Definition cells_within (df : pd.DataFrame) : Prop :=
  Forall (λ m : gmap string value, dom m ⊆ (list_to_set (pd.columns df) : gset string))
    (pd.rows df).*2.

(** Column names pairwise distinct and no cell outside the columns. *)
Definition columns_sound (df : pd.DataFrame) : Prop :=
  NoDup (pd.columns df) ∧ cells_within df.

(** The keys of an inserted mapping are pairwise distinct, as those of a
    Python [dict] are. *)
Definition proper_request (o : mutation) : Prop :=
  match o with
  | InsertRow new_row_data => NoDup (dict_keys new_row_data)
  | _ => True
  end.

(** A session: the requests are carried out one after the other; a
    request that raises leaves the world as it was. *)
Definition run_all (requests : list mutation) (w : World) : World :=
  foldl (λ w o, (apply_mutation o w).2) w requests.

(** The column each filter names. *)
Definition filter_column (choice : Z) : option string :=
  if decide (choice = 1%Z) then Some "IT"
  else if decide (choice = 2%Z) then Some "Marketing"
  else if decide (choice = 3%Z) then Some "Finance"
  else if decide (choice = 4%Z) then Some "Operations"
  else if decide (choice = 5%Z) then Some "Month"
  else None.

(** The filters that compare their column with integer literals. *)
Definition compares_numbers (choice : Z) : Prop :=
  choice = 1%Z ∨ choice = 2%Z ∨ choice = 4%Z.

(** The row has a [Marketing] cell and its value is below 22000. *)
Definition Marketing_below_22000 (r : Z * gmap string value) : Prop :=
  match pd.cell_of "Marketing" r with
  | Some (VInt z) => (z < 22000)%Z
  | _ => False
  end.

#[global] Instance Marketing_below_22000_dec r : Decision (Marketing_below_22000 r).
Proof.
  unfold Marketing_below_22000.
  destruct (pd.cell_of "Marketing" r) as [[z|s]|]; apply _.
Defined.

(** The row has an [Operations] cell and its value lies in 25000..30000. *)
Definition Operations_in_range (r : Z * gmap string value) : Prop :=
  match pd.cell_of "Operations" r with
  | Some (VInt z) => (25000 ≤ z ≤ 30000)%Z
  | _ => False
  end.

#[global] Instance Operations_in_range_dec r : Decision (Operations_in_range r).
Proof.
  unfold Operations_in_range.
  destruct (pd.cell_of "Operations" r) as [[z|s]|]; apply _.
Defined.

(** The row has a [Finance] cell. *)
Definition Finance_present (r : Z * gmap string value) : Prop :=
  is_Some (pd.cell_of "Finance" r).

#[global] Instance Finance_present_dec r : Decision (Finance_present r).
Proof. unfold Finance_present. apply _. Defined.

(** The [Month] cell of the row is one of the two texts. *)
Definition Month_selected (r : Z * gmap string value) : Prop :=
  pd.cell_of "Month" r = Some (VStr "January 2023") ∨
  pd.cell_of "Month" r = Some (VStr "March 2023").

#[global] Instance Month_selected_dec r : Decision (Month_selected r).
Proof. unfold Month_selected. apply _. Defined.

(** A table with every column the program names. *)
Definition full_row0 : gmap string value :=
  list_to_map [("date", VStr "2023-01-31"); ("revenue", VInt 120000);
               ("product", VStr "Alpha"); ("discounts", VInt 5);
               ("Month", VStr "January 2023"); ("IT", VInt 29000);
               ("Marketing", VInt 21000); ("Finance", VInt 18000);
               ("Operations", VInt 25000)].
Definition full_row1 : gmap string value :=
  list_to_map [("date", VStr "2023-02-28"); ("revenue", VInt 130000);
               ("product", VStr "Beta"); ("discounts", VInt 0);
               ("Month", VStr "February 2023"); ("IT", VInt 30000);
               ("Marketing", VInt 22000); ("Operations", VInt 30001)].
Definition full_row2 : gmap string value :=
  list_to_map [("date", VStr "2023-03-31"); ("revenue", VInt 125000);
               ("product", VStr "Alpha"); ("discounts", VInt 10);
               ("Month", VStr "March 2023"); ("IT", VInt 31000);
               ("Marketing", VInt 23000); ("Finance", VInt 19000);
               ("Operations", VInt 30000)].

Definition full_df : pd.DataFrame :=
  {| pd.columns := ["date"; "revenue"; "product"; "discounts"; "Month"; "IT";
                    "Marketing"; "Finance"; "Operations"];
     pd.dtypes := list_to_map [("date", object); ("revenue", int64);
                               ("product", object); ("discounts", int64);
                               ("Month", object); ("IT", int64);
                               ("Marketing", int64); ("Finance", float64);
                               ("Operations", int64)];
     pd.rows := [(0%Z, full_row0); (1%Z, full_row1); (2%Z, full_row2)] |}.

Definition full_w : World := {| dataset := {| data := full_df |}; stdout := [] |}.

(** ** Facts about the pandas operations *)

Section values.

Lemma py_eq_true (a b : value) : py_eq a b = true ↔ a = b.
Proof.
  destruct a as [x|s], b as [y|t]; simpl;
    rewrite ?bool_decide_eq_true; split; congruence.
Qed.

Lemma float64_of_int_small (z : Z) :
  (Z.abs z ≤ 2 ^ 53)%Z → float64_of_int z = z.
Proof.
  intros Hz. unfold float64_of_int.
  destruct (Z.ltb_spec (Z.abs z) (2 ^ 53)) as [Hlt|Hge]; [done|].
  assert (Z.abs z = 2 ^ 53)%Z as Habs by lia.
  rewrite Habs. destruct (Z.abs_spec z) as [[? Hz']|[? Hz']]; rewrite Hz' in Habs.
  - by subst z.
  - assert (z = - 2 ^ 53)%Z as -> by lia. reflexivity.
Qed.

(** Beyond 2^53 the rounded integer has 53 significant bits. *)
Lemma float64_of_int_large (z : Z) :
  (2 ^ 53 ≤ Z.abs z)%Z →
  ∃ m e, (1 ≤ e)%Z ∧ (2 ^ 52 ≤ m ≤ 2 ^ 53)%Z ∧
         float64_of_int z = (Z.sgn z * (m * 2 ^ e))%Z.
Proof.
  intros Hz. unfold float64_of_int.
  destruct (Z.ltb_spec (Z.abs z) (2 ^ 53)) as [Hlt|_]; [lia|].
  set (a := Z.abs z) in *.
  assert (53 ≤ Z.log2 a)%Z as Hlog by (apply Z.log2_le_pow2; lia).
  set (e := (Z.log2 a - 52)%Z).
  assert (1 ≤ e)%Z as He by (subst e; lia).
  destruct (Z.log2_spec a) as [Hlo Hhi]; [lia|].
  assert (2 ^ Z.log2 a = 2 ^ 52 * 2 ^ e)%Z as Hpow.
  { rewrite <- Z.pow_add_r by lia. f_equal. subst e. lia. }
  assert (2 ^ Z.succ (Z.log2 a) = 2 ^ 53 * 2 ^ e)%Z as Hpow'.
  { rewrite <- Z.pow_add_r by lia. f_equal. subst e. lia. }
  assert (0 < 2 ^ e)%Z as Hpos by (apply Z.pow_pos_nonneg; lia).
  assert (2 ^ 52 ≤ a / 2 ^ e < 2 ^ 53)%Z as Hq.
  { split.
    - apply Z.div_le_lower_bound; lia.
    - apply Z.div_lt_upper_bound; lia. }
  eexists _, e. split; [done|]. split; [|reflexivity].
  destruct (_ || _); lia.
Qed.

Lemma float64_of_int_opp (z : Z) : float64_of_int (- z) = (- float64_of_int z)%Z.
Proof.
  unfold float64_of_int. rewrite Z.abs_opp, Z.sgn_opp.
  destruct (Z.abs z <? 2 ^ 53)%Z; [done|]. lia.
Qed.

(** A number with 53 significant bits is a float64. *)
Lemma float64_of_int_fixed (m e : Z) :
  (1 ≤ e)%Z → (2 ^ 52 ≤ m ≤ 2 ^ 53)%Z →
  float64_of_int (m * 2 ^ e) = (m * 2 ^ e)%Z.
Proof.
  intros He Hm.
  assert (0 < 2 ^ e)%Z as Hpos by (apply Z.pow_pos_nonneg; lia).
  assert (2 ≤ 2 ^ e)%Z as Htwo.
  { change 2%Z with (2 ^ 1)%Z at 1. apply Z.pow_le_mono_r; lia. }
  set (a := (m * 2 ^ e)%Z).
  assert (2 ^ 53 ≤ a)%Z as Hbig by (subst a; nia).
  unfold float64_of_int. fold a.
  rewrite (Z.abs_eq a) by lia.
  destruct (Z.ltb_spec a (2 ^ 53)) as [?|_]; [lia|].
  rewrite (Z.sgn_pos a) by lia.
  destruct (decide (m = 2 ^ 53)%Z) as [->|Hne].
  - assert (a = 2 ^ (53 + e))%Z as Ha by (subst a; rewrite Z.pow_add_r by lia; done).
    rewrite Ha, Z.log2_pow2 by lia.
    replace (53 + e - 52)%Z with (e + 1)%Z by lia.
    replace (53 + e)%Z with (52 + (e + 1))%Z by lia.
    rewrite (Z.pow_add_r 2 52 (e + 1)) by lia.
    rewrite Z.div_mul, Z.mod_mul by lia.
    replace (e + 1 - 1)%Z with e by lia.
    destruct (Z.ltb_spec (2 ^ e) 0) as [?|_]; [lia|].
    destruct (Z.eqb_spec 0 (2 ^ e)) as [?|_]; [lia|]. simpl. lia.
  - assert (Z.log2 a = 52 + e)%Z as Hlog.
    { apply Z.log2_unique; [lia|]. split.
      - subst a. rewrite Z.pow_add_r by lia. nia.
      - subst a. replace (Z.succ (52 + e)) with (53 + e)%Z by lia.
        rewrite Z.pow_add_r by lia. nia. }
    rewrite Hlog. replace (52 + e - 52)%Z with e by lia.
    subst a. rewrite Z.div_mul, Z.mod_mul by lia.
    assert (0 < 2 ^ (e - 1))%Z as Hhalf by (apply Z.pow_pos_nonneg; lia).
    destruct (Z.ltb_spec (2 ^ (e - 1)) 0) as [?|_]; [lia|].
    destruct (Z.eqb_spec 0 (2 ^ (e - 1))) as [?|_]; [lia|]. simpl. lia.
Qed.

(** Rounding a float64 gives the same float64. *)
Lemma float64_of_int_idemp (z : Z) :
  float64_of_int (float64_of_int z) = float64_of_int z.
Proof.
  destruct (Z.le_gt_cases (2 ^ 53) (Z.abs z)) as [Hbig|Hsmall].
  - destruct (float64_of_int_large z Hbig) as (m & e & He & Hm & ->).
    destruct (Z.sgn_spec z) as [[? ->]|[[? ->]|[? ->]]].
    + rewrite Z.mul_1_l. by apply float64_of_int_fixed.
    + subst z. simpl in Hbig. lia.
    + replace (-1 * (m * 2 ^ e))%Z with (- (m * 2 ^ e))%Z by lia.
      rewrite float64_of_int_opp. f_equal. by apply float64_of_int_fixed.
  - rewrite (float64_of_int_small z) by lia. apply float64_of_int_small. lia.
Qed.

Lemma cast_safe (t : dtype) (v : value) : safe_value v → cast t v = v.
Proof.
  destruct t, v as [z|s]; simpl; try done.
  intros Hz. by rewrite float64_of_int_small.
Qed.

Lemma cast_idemp (t : dtype) (v : value) : cast t (cast t v) = cast t v.
Proof.
  destruct t, v as [z|s]; simpl; try done. by rewrite float64_of_int_idemp.
Qed.

Lemma cast_text (t : dtype) (s : string) : cast t (VStr s) = VStr s.
Proof. by destruct t. Qed.

Lemma safe_in_int64 (z : Z) : safe_value (VInt z) → in_int64 z.
Proof. unfold in_int64. simpl. lia. Qed.

Lemma safe_float64_finite (z : Z) : safe_value (VInt z) → float64_finite z.
Proof.
  intros Hz. unfold float64_finite. rewrite float64_of_int_small by done.
  simpl in Hz. transitivity (2 ^ 53 + 1)%Z; [lia|]. by vm_compute.
Qed.

(** What is in the column is found in it, whatever its dtype. *)
Lemma py_in_elem (x : value) (t : dtype) (cells : list cell) :
  Some x ∈ cells → py_in x (t, cells) = true.
Proof.
  intros Hin. unfold py_in. simpl. apply existsb_exists.
  exists (Some x). split; [by apply list_elem_of_In|].
  simpl. by apply py_eq_true.
Qed.

(** On values that every dtype holds exactly, [in] is membership. *)
Lemma py_in_safe (x : value) (t : dtype) (cells : list cell) :
  safe_value x →
  Forall (λ e : cell, from_option safe_value True e) cells →
  Some x ∉ cells →
  py_in x (t, cells) = false.
Proof.
  intros Hx Hcells Hnot. unfold py_in. simpl.
  destruct (existsb _ _) eqn:Hex; [|done].
  apply existsb_exists in Hex as (e & He%list_elem_of_In & Heq).
  destruct e as [y|]; simpl in Heq; [|done].
  pose proof (proj1 (Forall_forall _ _) Hcells _ He) as Hy. simpl in Hy.
  rewrite !cast_safe in Heq by done.
  apply py_eq_true in Heq as ->. done.
Qed.

End values.

Section frames.

Implicit Types (df : pd.DataFrame) (r : Z * gmap string value).
Implicit Types (p n : nat) (c : string) (i : Z).

Lemma lookup_range_index n p :
  p < n → pd.range_index n !! p = Some (Z.of_nat p).
Proof.
  intros Hp. unfold pd.range_index.
  by rewrite lookup_seqZ_lt by lia.
Qed.

Lemma lookup_range_index_Some n p i :
  pd.range_index n !! p = Some i → i = Z.of_nat p ∧ p < n.
Proof.
  unfold pd.range_index. rewrite lookup_seqZ. lia.
Qed.

Lemma reset_index_drop_length df :
  length (pd.rows (pd.reset_index_drop df)) = length (pd.rows df).
Proof.
  unfold pd.reset_index_drop, pd.range_index; simpl.
  rewrite length_zip_with, length_seqZ, length_fmap. lia.
Qed.

Lemma reset_index_drop_lookup df p r :
  pd.rows df !! p = Some r →
  pd.rows (pd.reset_index_drop df) !! p = Some (Z.of_nat p, r.2).
Proof.
  intros Hr. unfold pd.reset_index_drop; simpl.
  rewrite lookup_zip_with, list_lookup_fmap, Hr.
  rewrite lookup_range_index by (eapply lookup_lt_Some; eauto).
  reflexivity.
Qed.

Lemma reset_index_drop_index df :
  pd.index (pd.reset_index_drop df) = pd.range_index (length (pd.rows df)).
Proof.
  unfold pd.index, pd.reset_index_drop; simpl.
  apply fst_zip. unfold pd.range_index.
  rewrite length_seqZ, length_fmap. lia.
Qed.

Lemma reset_index_drop_contents df :
  (pd.rows (pd.reset_index_drop df)).*2 = (pd.rows df).*2.
Proof.
  unfold pd.reset_index_drop; simpl.
  apply snd_zip. unfold pd.range_index.
  rewrite length_seqZ, length_fmap. lia.
Qed.

(** A frame labelled [0 .. N-1] has label [p] at position [p]. *)
Lemma range_labelled_lookup df p r :
  pd.index df = pd.range_index (length (pd.rows df)) →
  pd.rows df !! p = Some r → r.1 = Z.of_nat p.
Proof.
  intros Hidx Hr.
  assert (pd.index df !! p = Some r.1) as Hl.
  { unfold pd.index. by rewrite list_lookup_fmap, Hr. }
  rewrite Hidx in Hl. by apply lookup_range_index_Some in Hl as [-> _].
Qed.

Lemma range_labelled_NoDup df :
  pd.index df = pd.range_index (length (pd.rows df)) → NoDup (pd.index df).
Proof. intros ->. apply NoDup_seqZ. Qed.

Lemma range_labelled_elem df i :
  pd.index df = pd.range_index (length (pd.rows df)) →
  i ∈ pd.index df ↔ (0 ≤ i < Z.of_nat (length (pd.rows df)))%Z.
Proof.
  intros ->. unfold pd.range_index. rewrite elem_of_seqZ. lia.
Qed.

End frames.

(** Unfolds the monad so that a method becomes a function on worlds. *)
Ltac run_method :=
  unfold mbind, M_bind, mret, M_ret, lift, get_data, load_data, store_data, print;
  simpl.

(** Settles a decidable statement about concrete data by evaluation. *)
Ltac by_evaluation := apply (bool_decide_unpack _); vm_compute; exact I.

(** ** [read_data] *)

(** C9. [read_data] is a pure read: it returns the stored frame and hands
    the world back as it was, so a second call right after the first one
    returns the same frame and the world is still the one before the two
    calls. *)
Theorem read_data_twice (w : World) :
  ∃ df w1 w2,
    read_data w = (Ok df, w1) ∧ read_data w1 = (Ok df, w2) ∧
    df = data (dataset w) ∧ w1 = w ∧ w2 = w.
Proof.
  exists (data (dataset w)), w, w. unfold read_data. by run_method.
Qed.

(** ** Stacking frames *)

Section recast.

Implicit Types (t : string → dtype) (m : gmap string value).

Lemma recast_lookup t m (c : string) :
  pd.recast t m !! c = cast (t c) <$> m !! c.
Proof.
  unfold pd.recast. rewrite map_lookup_imap. by destruct (m !! c).
Qed.

Lemma recast_safe t m :
  map_Forall (λ _ v, safe_value v) m → pd.recast t m = m.
Proof.
  intros Hm. apply map_eq. intros c. rewrite recast_lookup.
  destruct (m !! c) as [v|] eqn:Hc; [|done]. simpl.
  by rewrite cast_safe by (by eapply Hm).
Qed.

Lemma recast_dom t m : dom (pd.recast t m) = dom m.
Proof.
  apply set_eq. intros c. rewrite !elem_of_dom, recast_lookup.
  by rewrite fmap_is_Some.
Qed.

Lemma recast_rows_safe t (rws : list (Z * gmap string value)) :
  Forall (λ r : Z * gmap string value, map_Forall (λ _ v, safe_value v) r.2) rws →
  (λ r : Z * gmap string value, (r.1, pd.recast t r.2)) <$> rws = rws.
Proof.
  intros Hsafe. rewrite <- (list_fmap_id rws) at 2.
  apply list_fmap_ext. intros p [i m] Hp. simpl.
  rewrite recast_safe; [done|].
  apply (proj1 (Forall_forall _ _) Hsafe (i, m)).
  by eapply list_elem_of_lookup_2.
Qed.

Lemma record_lookup (d : dict) (c : string) :
  (list_to_map d : gmap string value) !! c = dict_get c d.
Proof.
  induction d as [|[k v] d IH]; [done|]. simpl.
  destruct (decide (c = k)) as [->|Hne].
  - apply lookup_insert_eq.
  - by rewrite lookup_insert_ne.
Qed.

Lemma dict_get_elem (d : dict) (c : string) (v : value) :
  dict_get c d = Some v → (c, v) ∈ d.
Proof.
  induction d as [|[k x] d IH]; simpl; [done|].
  destruct (decide (c = k)) as [->|Hne].
  - intros [= ->]. by left.
  - intros Hget. right. by apply IH.
Qed.

Lemma safe_dict_get (d : dict) (c : string) (v : value) :
  safe_dict d → dict_get c d = Some v → safe_value v.
Proof.
  intros Hd Hget.
  apply (proj1 (Forall_forall _ _) Hd (c, v)). by apply dict_get_elem.
Qed.

Lemma safe_dict_record (d : dict) :
  safe_dict d → map_Forall (λ _ v, safe_value v) (list_to_map d : gmap string value).
Proof.
  intros Hd c v Hc. rewrite record_lookup in Hc. by eapply safe_dict_get.
Qed.

End recast.

Section concat.

Implicit Types (a b df : pd.DataFrame) (d : dict).

Lemma concat_columns a b :
  pd.columns (pd.concat_ignore_index a b)
  = pd.union_columns (pd.columns a) (pd.columns b).
Proof. reflexivity. Qed.

Lemma concat_length a b :
  length (pd.rows (pd.concat_ignore_index a b))
  = length (pd.rows a) + length (pd.rows b).
Proof.
  unfold pd.concat_ignore_index. rewrite reset_index_drop_length.
  cbn [pd.rows]. by rewrite length_fmap, length_app.
Qed.

Lemma concat_index a b :
  pd.index (pd.concat_ignore_index a b)
  = pd.range_index (length (pd.rows a) + length (pd.rows b)).
Proof.
  unfold pd.concat_ignore_index. rewrite reset_index_drop_index.
  cbn [pd.rows]. by rewrite length_fmap, length_app.
Qed.

Lemma concat_contents a b :
  (pd.rows (pd.concat_ignore_index a b)).*2
  = pd.recast (pd.concat_dtype a b) <$> (pd.rows a ++ pd.rows b)%list.*2.
Proof.
  unfold pd.concat_ignore_index. rewrite reset_index_drop_contents.
  cbn [pd.rows]. by rewrite <- !list_fmap_compose.
Qed.

Lemma concat_lookup a b (p : nat) (r : Z * gmap string value) :
  (pd.rows a ++ pd.rows b)%list !! p = Some r →
  pd.rows (pd.concat_ignore_index a b) !! p
  = Some (Z.of_nat p, pd.recast (pd.concat_dtype a b) r.2).
Proof.
  intros Hr. unfold pd.concat_ignore_index.
  rewrite (reset_index_drop_lookup _ p
             (r.1, pd.recast (pd.concat_dtype a b) r.2)); [done|].
  cbn [pd.rows]. by rewrite list_lookup_fmap, Hr.
Qed.

(** The last row of the enlarged frame is the new record, as the columns
    hold it. *)
Lemma concat_record_last df d :
  pd.rows (pd.concat_ignore_index df (pd.DataFrame_of_record d))
    !! length (pd.rows df)
  = Some (Z.of_nat (length (pd.rows df)),
          pd.recast (pd.concat_dtype df (pd.DataFrame_of_record d)) (list_to_map d)).
Proof.
  rewrite (concat_lookup _ _ _ (0%Z, list_to_map d)); [done|].
  simpl. by rewrite lookup_app_r, Nat.sub_diag.
Qed.

End concat.

(** ** [add_data] *)

Section add_data.

Variable w : World.
Variable new_row_data : dict.
Variable d : value.
Let df := data (dataset w).

Hypothesis date_given : dict_get "date" new_row_data = Some d.
Hypothesis date_column : "date" ∈ pd.columns df.

Lemma add_data_unfold :
  add_data new_row_data w =
    if py_in d (pd.dtype_of df "date", pd.cell_of "date" <$> pd.rows df) then
      (Ok "Duplicate found. Data couldn't be added.", w)
    else
      (Ok "Data added successfully.",
       {| dataset := {| data := pd.concat_ignore_index df
                                  (pd.DataFrame_of_record new_row_data) |};
          stdout := stdout w |}).
Proof.
  unfold add_data, dict_getitem, pd.getitem_values. run_method.
  rewrite date_given. fold df. rewrite decide_True by exact date_column.
  simpl. by destruct (py_in d _).
Qed.

End add_data.

(** The run of [add_data] on a [date] that no row carries, when all
    values are held exactly. *)
Lemma add_data_appends (w : World) (new_row_data : dict) (d : value) :
  dict_get "date" new_row_data = Some d →
  "date" ∈ pd.columns (data (dataset w)) →
  (∀ r, r ∈ pd.rows (data (dataset w)) → pd.cell_of "date" r ≠ Some d) →
  safe_frame (data (dataset w)) →
  safe_dict new_row_data →
  add_data new_row_data w =
    (Ok "Data added successfully.",
     {| dataset := {| data := pd.concat_ignore_index (data (dataset w))
                                (pd.DataFrame_of_record new_row_data) |};
        stdout := stdout w |}).
Proof.
  intros Hd Hcol Hfresh Hsafe Hdict.
  rewrite (add_data_unfold w new_row_data d Hd Hcol).
  rewrite py_in_safe; [done| | |].
  - by eapply safe_dict_get.
  - apply Forall_fmap. eapply Forall_impl; [exact Hsafe|].
    intros [i m] Hm. unfold pd.cell_of. simpl in *.
    destruct (m !! "date") as [v|] eqn:Hv; [|done]. simpl. by eapply Hm.
  - intros (r & Hcell & Hr)%list_elem_of_fmap. by apply (Hfresh r Hr).
Qed.

(** With values held exactly the stacked frame holds the old rows and the
    record as they are. *)
Lemma concat_record_safe (df : pd.DataFrame) (d : dict) :
  safe_frame df → safe_dict d →
  (pd.rows (pd.concat_ignore_index df (pd.DataFrame_of_record d))).*2
  = ((pd.rows df).*2 ++ [list_to_map d])%list.
Proof.
  intros Hsafe Hdict. rewrite concat_contents. simpl.
  rewrite fmap_app, fmap_app. simpl. f_equal.
  - rewrite <- list_fmap_compose.
    rewrite <- (recast_rows_safe
                  (pd.concat_dtype df (pd.DataFrame_of_record d)) (pd.rows df) Hsafe)
      at 2.
    by rewrite <- list_fmap_compose.
  - by rewrite recast_safe by (by apply safe_dict_record).
Qed.

(** C1. When the new row's [date] equals the [date] cell of a row already in
    the table, [add_data] answers with the duplicate message and the world
    after the call is the world before it: no row and no cell has moved.
    The table has a [date] column, the one [Dataset.__init__] reads. *)
Theorem add_data_duplicate (w : World) (new_row_data : dict) (d : value) :
  dict_get "date" new_row_data = Some d →
  "date" ∈ pd.columns (data (dataset w)) →
  (∃ r, r ∈ pd.rows (data (dataset w)) ∧ pd.cell_of "date" r = Some d) →
  add_data new_row_data w = (Ok "Duplicate found. Data couldn't be added.", w).
Proof.
  intros Hd Hcol (r & Hr & Hcell).
  rewrite (add_data_unfold w new_row_data d Hd Hcol).
  rewrite py_in_elem; [done|].
  rewrite <- Hcell. by apply list_elem_of_fmap_2.
Qed.

Lemma add_data_duplicate_witness :
  add_data [("date", VStr "2023-02-28"); ("IT", VInt 5)] w0
  = (Ok "Duplicate found. Data couldn't be added.", w0).
Proof.
  apply (add_data_duplicate w0 _ (VStr "2023-02-28")).
  - reflexivity.
  - by_evaluation.
  - exists (1%Z, row1). split.
    + by_evaluation.
    + vm_compute. reflexivity.
Defined.

(** C2, as the code has it. Let every integer of the table and of the
    mapping be at most 2^53 in magnitude. When no row of the table carries
    the new row's [date], [add_data] answers with the success message; the
    table has one row more, the new row stands last, at the old row count,
    and holds the cells of the mapping; every row that was there keeps its
    position and its cells; the labels are again [0 .. N]; the columns
    that were there stay in their order and the only new ones are keys of
    the mapping. Nothing is printed. The table has a [date] column, the
    one [Dataset.__init__] reads. *)
Theorem add_data_fresh (w : World) (new_row_data : dict) (d : value) :
  dict_get "date" new_row_data = Some d →
  "date" ∈ pd.columns (data (dataset w)) →
  (∀ r, r ∈ pd.rows (data (dataset w)) → pd.cell_of "date" r ≠ Some d) →
  safe_frame (data (dataset w)) →
  safe_dict new_row_data →
  ∃ w',
    add_data new_row_data w = (Ok "Data added successfully.", w') ∧
    let old := pd.rows (data (dataset w)) in
    let new := pd.rows (data (dataset w')) in
    length new = S (length old) ∧
    new !! length old = Some (Z.of_nat (length old), list_to_map new_row_data) ∧
    (∀ p r, old !! p = Some r → new !! p = Some (Z.of_nat p, r.2)) ∧
    pd.index (data (dataset w')) = pd.range_index (S (length old)) ∧
    pd.columns (data (dataset w)) `prefix_of` pd.columns (data (dataset w')) ∧
    (∀ c, c ∈ pd.columns (data (dataset w')) ↔
          c ∈ pd.columns (data (dataset w)) ∨ c ∈ dict_keys new_row_data) ∧
    stdout w' = stdout w.
Proof.
  intros Hd Hcol Hfresh Hsafe Hdict.
  rewrite (add_data_appends w new_row_data d Hd Hcol Hfresh Hsafe Hdict).
  eexists; split; [reflexivity|]. cbn [dataset data stdout].
  set (df := data (dataset w)) in *.
  repeat split.
  - rewrite concat_length. simpl. lia.
  - rewrite concat_record_last.
    by rewrite recast_safe by (by apply safe_dict_record).
  - intros p r Hr. rewrite (concat_lookup _ _ p r) by (by apply lookup_app_l_Some).
    rewrite recast_safe; [done|].
    apply (proj1 (Forall_forall _ _) Hsafe r). by eapply list_elem_of_lookup_2.
  - rewrite concat_index. simpl. f_equal. lia.
  - rewrite concat_columns. by eexists.
  - rewrite concat_columns. unfold pd.union_columns.
    rewrite elem_of_app, list_elem_of_filter. simpl. tauto.
  - rewrite concat_columns. unfold pd.union_columns.
    rewrite elem_of_app, list_elem_of_filter. simpl.
    destruct (decide (c ∈ pd.columns df)); tauto.
Qed.

Lemma add_data_fresh_witness :
  ∃ w', add_data [("date", VStr "2023-04-30"); ("IT", VInt 32000)] w0
        = (Ok "Data added successfully.", w') ∧
        length (pd.rows (data (dataset w'))) = 4 ∧
        pd.rows (data (dataset w')) !! 3
        = Some (3%Z, list_to_map [("date", VStr "2023-04-30"); ("IT", VInt 32000)]).
Proof.
  destruct (add_data_fresh w0 [("date", VStr "2023-04-30"); ("IT", VInt 32000)]
              (VStr "2023-04-30")) as (w' & Hrun & Hlen & Hlast & _).
  - reflexivity.
  - by_evaluation.
  - apply Forall_forall. by_evaluation.
  - unfold safe_frame. by_evaluation.
  - unfold safe_dict. by_evaluation.
  - exists w'. repeat split; assumption.
Defined.

(** C2 as stated fails on integers above 2^53: [IT] is an [int64] column
    holding 9007199254740993; a row with a new [date] and no [IT] is
    accepted, NaN joins the column, the column becomes [float64] and the
    cell that was there is now 9007199254740992. *)
Lemma add_data_rounds_existing_cell :
  Forall (λ r, pd.cell_of "date" r ≠ Some (VStr "2023-04-30")) (pd.rows big_df) ∧
  pd.dtype_of big_df "IT" = int64 ∧
  iat big_df 0 "IT" = Some (Some (VInt 9007199254740993)) ∧
  (add_data [("date", VStr "2023-04-30")] big_w).1 = Ok "Data added successfully." ∧
  iat (data (dataset (add_data [("date", VStr "2023-04-30")] big_w).2)) 0 "IT"
  = Some (Some (VInt 9007199254740992)).
Proof.
  split; [by_evaluation|]. repeat split; vm_compute; reflexivity.
Qed.

(** ** [filter_data] *)

Section queries.

Implicit Types (df : pd.DataFrame) (r : Z * gmap string value).

Lemma mapM_compare_numeric (op : Z → bool) (cells : list cell) :
  Forall numeric_cell cells →
  result_mapM (pd.compare_cell op) cells = Ok (holds_on_cell op <$> cells).
Proof.
  induction 1 as [|x cells Hx _ IH]; [done|]. simpl.
  rewrite IH. by destruct x as [[z|s]|].
Qed.

Lemma select_mask {A} (f : A → bool) (l : list A) :
  pd.select (f <$> l) l = filter (λ x, f x = true) l.
Proof.
  induction l as [|x l IH]; [done|]. csimpl.
  rewrite filter_cons, IH. by destruct (f x).
Qed.

Lemma query_compare_numeric df (c : string) (op : Z → bool) :
  c ∈ pd.columns df →
  Forall (λ r, numeric_cell (pd.cell_of c r)) (pd.rows df) →
  pd.query_compare df c op =
    Ok {| pd.columns := pd.columns df;
          pd.dtypes := pd.dtypes df;
          pd.rows := filter (λ r, holds_on_cell op (pd.cell_of c r) = true)
                       (pd.rows df) |}.
Proof.
  intros Hc Hnum. unfold pd.query_compare.
  rewrite decide_True by done.
  rewrite mapM_compare_numeric by (by apply Forall_fmap).
  simpl. f_equal. f_equal.
  rewrite <- list_fmap_compose. apply select_mask.
Qed.

End queries.

(** C5. On a table with a numeric [IT] column, [filter_data 1] returns a
    frame with the same columns and dtypes whose rows are exactly the rows
    with an [IT] value of 30000 or more, in their order and under their
    labels; the value 30000 itself is kept. The world is not changed. *)
Theorem filter_data_IT (w : World) :
  "IT" ∈ pd.columns (data (dataset w)) →
  Forall (λ r, numeric_cell (pd.cell_of "IT" r)) (pd.rows (data (dataset w))) →
  ∃ filtered_data,
    filter_data 1 w = (Ok (Some filtered_data), w) ∧
    pd.columns filtered_data = pd.columns (data (dataset w)) ∧
    pd.dtypes filtered_data = pd.dtypes (data (dataset w)) ∧
    pd.rows filtered_data = filter IT_at_least_30000 (pd.rows (data (dataset w))).
Proof.
  intros Hcol Hnum. unfold filter_data. rewrite decide_True by done. run_method.
  rewrite (query_compare_numeric _ _ _ Hcol Hnum). simpl.
  eexists; split; [reflexivity|]. split; [done|]. split; [done|]. simpl.
  apply list_filter_iff. intros r. unfold IT_at_least_30000, holds_on_cell.
  destruct (pd.cell_of "IT" r) as [[z|s]|]; try (split; [discriminate|done]).
  apply Z.leb_le.
Qed.

(** Rows with [IT] values 29000, 30000 and 31000: the last two are kept. *)
Lemma filter_data_IT_witness :
  filter_data 1 w0
  = (Ok (Some {| pd.columns := pd.columns df0;
                 pd.dtypes := pd.dtypes df0;
                 pd.rows := [(1%Z, row1); (2%Z, row2)] |}), w0).
Proof.
  destruct (filter_data_IT w0) as ([cols dts rws] & Hrun & Hcols & Hdts & Hrows).
  - by_evaluation.
  - by_evaluation.
  - rewrite Hrun. simpl in Hcols, Hdts, Hrows. rewrite Hcols, Hdts, Hrows.
    reflexivity.
Defined.

(** C4, as the code has it. A choice outside 1..5 does not raise:
    [filter_data] prints a line and returns [None], no table at all, and
    the dataset is the one before the call. *)
Theorem filter_data_unrecognized (w : World) (choice : Z) :
  (choice < 1 ∨ 5 < choice)%Z →
  ∃ w',
    filter_data choice w = (Ok None, w') ∧
    dataset w' = dataset w ∧
    stdout w' = (stdout w ++ ["Invalid choice. No filtering applied."])%list.
Proof.
  intros Hchoice. unfold filter_data.
  rewrite !decide_False by lia. run_method. eauto.
Qed.

Lemma filter_data_unrecognized_witness :
  ∃ w', filter_data 99 w0 = (Ok None, w') ∧ dataset w' = dataset w0.
Proof.
  destruct (filter_data_unrecognized w0 99) as (w' & Hrun & Hdata & _).
  - right. reflexivity.
  - exists w'. split; assumption.
Defined.

(** C4 as stated fails: for the choice 99 the result is [None], so no
    table, empty or not, is returned. *)
Lemma filter_data_returns_no_table :
  (filter_data 99 w0).1 = Ok None ∧
  ¬ ∃ table : pd.DataFrame, (filter_data 99 w0).1 = Ok (Some table).
Proof.
  split; [reflexivity|]. intros [table Htable]. discriminate Htable.
Qed.

(** ** [edit_data] *)

Section at_set.

Implicit Types (df : pd.DataFrame) (m : gmap string value).

Lemma add_column_present (c : string) (cols : list string) :
  c ∈ cols → pd.add_column c cols = cols.
Proof. intros Hc. unfold pd.add_column. by rewrite decide_True. Qed.

Lemma with_column_columns df (c : string) :
  pd.columns (pd.with_column df c) = pd.add_column c (pd.columns df).
Proof.
  unfold pd.with_column, pd.add_column. by destruct (decide (c ∈ pd.columns df)).
Qed.

Lemma with_column_rows df (c : string) :
  pd.rows (pd.with_column df c) = pd.rows df.
Proof. unfold pd.with_column. by destruct (decide (c ∈ pd.columns df)). Qed.

(** What [set_cell] stores: a value it can hold exactly it stores as it
    is. *)
Lemma set_cell_Ok df (i : Z) (c : string) (v : value) (df' : pd.DataFrame) :
  pd.set_cell df i c v = Ok df' →
  ∃ t v', df' = pd.write df t i c v' ∧ (safe_value v → v' = v).
Proof.
  unfold pd.set_cell.
  destruct (pd.dtype_of df c), v as [z|s];
    repeat case_decide; intros [= <-]; try (by eexists _, _);
    eexists _, _; (split; [reflexivity|]); intros Hz;
    by rewrite float64_of_int_small.
Qed.

Lemma set_cell_safe df (i : Z) (c : string) (v : value) :
  safe_value v → ∃ t, pd.set_cell df i c v = Ok (pd.write df t i c v).
Proof.
  intros Hv. unfold pd.set_cell. destruct (pd.dtype_of df c), v as [z|s];
    try (by eexists).
  - rewrite decide_True by (by apply safe_in_int64). by eexists.
  - rewrite decide_True by (by apply safe_float64_finite).
    rewrite float64_of_int_small by done. by eexists.
Qed.

Lemma write_index df (t : dtype) (i : Z) (c : string) (v : value) :
  pd.index (pd.write df t i c v) = pd.index df.
Proof.
  unfold pd.index, pd.write. simpl. rewrite <- list_fmap_compose.
  apply list_fmap_ext. intros q [j m] _. simpl. by destruct (decide (j = i)).
Qed.

(** With distinct labels the row labelled [i] is the only one written. *)
Lemma write_rows_present df (t : dtype) (p : nat) (i : Z) m (c : string) (v : value) :
  NoDup (pd.index df) →
  pd.rows df !! p = Some (i, m) →
  pd.rows (pd.write df t i c v) = <[p := (i, <[c := v]> m)]> (pd.rows df).
Proof.
  intros Hnodup Hp. unfold pd.write. simpl.
  apply list_eq. intros q. rewrite list_lookup_fmap.
  destruct (decide (p = q)) as [<-|Hpq].
  - rewrite list_lookup_insert_eq by (by eapply lookup_lt_Some).
    rewrite Hp. simpl. by rewrite decide_True.
  - rewrite list_lookup_insert_ne by done.
    destruct (pd.rows df !! q) as [[j m']|] eqn:Hq; [|done]. simpl.
    rewrite decide_False; [done|]. intros ->. apply Hpq.
    apply (NoDup_lookup (pd.index df) p q i Hnodup);
      unfold pd.index; rewrite list_lookup_fmap; by (rewrite Hp || rewrite Hq).
Qed.

(** Rows that do not carry the label are not written. *)
Lemma write_rows_absent (rws : list (Z * gmap string value)) (i : Z) (c : string)
    (v : value) :
  i ∉ rws.*1 →
  (λ r : Z * gmap string value,
     if decide (r.1 = i) then (r.1, <[c := v]> r.2) else r) <$> rws = rws.
Proof.
  intros Hi. rewrite <- (list_fmap_id rws) at 2.
  apply list_fmap_ext. intros q [j m] Hq. simpl.
  rewrite decide_False; [done|]. intros ->. apply Hi.
  apply (list_elem_of_fmap_2' _ _ (i, m)); [|done].
  by eapply list_elem_of_lookup_2.
Qed.

(** [.at] on a present label and a value held exactly. *)
Lemma at_set_present df (p : nat) (i : Z) m (c : string) (v : value) :
  NoDup (pd.index df) →
  pd.rows df !! p = Some (i, m) →
  safe_value v →
  ∃ df', pd.at_set df i c v = Ok df' ∧
         pd.columns df' = pd.add_column c (pd.columns df) ∧
         pd.rows df' = <[p := (i, <[c := v]> m)]> (pd.rows df).
Proof.
  intros Hnodup Hp Hv. unfold pd.at_set.
  assert (i ∈ pd.index df) as Hi.
  { unfold pd.index. apply (list_elem_of_fmap_2' _ _ (i, m)); [|done].
    by eapply list_elem_of_lookup_2. }
  rewrite decide_True by done.
  destruct (set_cell_safe (pd.with_column df c) i c v Hv) as [t ->].
  eexists. split; [reflexivity|]. split.
  - simpl. apply with_column_columns.
  - rewrite (write_rows_present (pd.with_column df c) t p i m c v).
    + by rewrite with_column_rows.
    + unfold pd.index. by rewrite with_column_rows.
    + by rewrite with_column_rows.
Qed.

(** [.at] on a missing label and a value held exactly: the rows that were
    there are held by dtypes that take NaN, the new row is last. *)
Lemma at_set_missing df (i : Z) (c : string) (v : value) :
  i ∉ pd.index df →
  safe_value v →
  ∃ df', pd.at_set df i c v = Ok df' ∧
         pd.columns df' = pd.add_column c (pd.columns df) ∧
         pd.rows df' =
           (((λ r : Z * gmap string value,
                (r.1, pd.recast (λ c', hold_na (pd.dtype_of df c')) r.2))
               <$> pd.rows df) ++ [(i, {[c := v]})])%list.
Proof.
  intros Hi Hv. unfold pd.at_set. rewrite decide_False by done.
  destruct (set_cell_safe (pd.with_column (pd.reindex_append df i) c) i c v Hv)
    as [t ->].
  eexists. split; [reflexivity|]. split.
  - simpl. by rewrite with_column_columns.
  - unfold pd.write. cbn [pd.rows]. rewrite with_column_rows.
    unfold pd.reindex_append. cbn [pd.rows]. rewrite fmap_app. f_equal.
    + apply write_rows_absent. rewrite <- list_fmap_compose.
      unfold pd.index in Hi. erewrite list_fmap_ext; [exact Hi|]. by intros q [j m'] _.
    + simpl. rewrite decide_True by done. by rewrite insert_empty.
Qed.

End at_set.

(** The run of [edit_data]. *)
Lemma edit_data_run (w : World) (i : Z) (c : string) (v : value) :
  edit_data i c v w =
    match pd.at_set (data (dataset w)) i c v with
    | Ok edited =>
        (Ok "Data edited successfully.",
         {| dataset := {| data := edited |}; stdout := stdout w |})
    | Raise e => (Raise e, w)
    end.
Proof.
  unfold edit_data. run_method. by destruct (pd.at_set (data (dataset w)) i c v).
Qed.

(** C10, as the code has it. A row label that the table does not have is
    not refused: for a value [v] that is a text or an integer of at most
    2^53 in magnitude, [edit_data] answers with the success message and the
    table gains a last row labelled [i], whose cell in column [c] is [v]
    and whose other cells are absent; the row count is one more. The
    columns stay when [c] is one of them, otherwise [c] is appended. When
    the integers of the table are at most 2^53 in magnitude too, the rows
    that were there stay as they were. *)
Theorem edit_data_missing_label (w : World) (i : Z) (c : string) (v : value) :
  i ∉ pd.index (data (dataset w)) →
  safe_value v →
  ∃ w' r,
    edit_data i c v w = (Ok "Data edited successfully.", w') ∧
    let old := pd.rows (data (dataset w)) in
    let new := pd.rows (data (dataset w')) in
    length new = S (length old) ∧
    new !! length old = Some r ∧
    r.1 = i ∧
    pd.cell_of c r = Some v ∧
    (∀ c', c' ≠ c → pd.cell_of c' r = None) ∧
    (safe_frame (data (dataset w)) → ∀ p, p < length old → new !! p = old !! p) ∧
    (c ∈ pd.columns (data (dataset w)) →
     pd.columns (data (dataset w')) = pd.columns (data (dataset w))) ∧
    (c ∉ pd.columns (data (dataset w)) →
     pd.columns (data (dataset w')) = (pd.columns (data (dataset w)) ++ [c])%list).
Proof.
  intros Hi Hv. rewrite edit_data_run.
  destruct (at_set_missing _ i c v Hi Hv) as (df' & -> & Hcols & Hrows).
  eexists _, (i, {[c := v]}). split; [reflexivity|]. cbn [dataset data].
  rewrite Hcols, Hrows. repeat split.
  - rewrite length_app, length_fmap. simpl. lia.
  - by rewrite lookup_app_r, length_fmap, Nat.sub_diag by (by rewrite length_fmap).
  - unfold pd.cell_of. simpl. apply lookup_singleton_eq.
  - intros c' Hc'. unfold pd.cell_of. simpl. by apply lookup_singleton_ne.
  - intros Hsafe p Hp. rewrite recast_rows_safe by done. by rewrite lookup_app_l.
  - apply add_column_present.
  - intros Hc. unfold pd.add_column. by rewrite decide_False.
Qed.

Lemma edit_data_missing_label_witness :
  ∃ w', edit_data 7 "IT" (VInt 1) w0 = (Ok "Data edited successfully.", w') ∧
        length (pd.rows (data (dataset w'))) = 4.
Proof.
  destruct (edit_data_missing_label w0 7 "IT" (VInt 1))
    as (w' & r & Hrun & Hlen & _).
  - by_evaluation.
  - by_evaluation.
  - exists w'. split; assumption.
Defined.

(** C10 as stated fails on integers above 2^53: the new row makes the
    [int64] column [IT] a [float64] column, and the new cell holds
    9007199254740992 where 9007199254740993 was written. *)
Lemma edit_data_rounds_new_cell :
  (7%Z ∉ pd.index df0) ∧
  (edit_data 7 "IT" (VInt 9007199254740993) w0).1 = Ok "Data edited successfully." ∧
  pd.index (data (dataset (edit_data 7 "IT" (VInt 9007199254740993) w0).2))
  = [0; 1; 2; 7]%Z ∧
  iat (data (dataset (edit_data 7 "IT" (VInt 9007199254740993) w0).2)) 3 "IT"
  = Some (Some (VInt 9007199254740992)).
Proof.
  split; [by_evaluation|]. repeat split; vm_compute; reflexivity.
Qed.

(** C8, as the code has it. On a table whose row labels are [0 .. N-1],
    for [0 <= i < N], a column [c] of the table and a value [v] that is a
    text or an integer of at most 2^53 in magnitude, [edit_data i c v]
    answers with the success message and sets the cell at row [i], column
    [c] to [v]; every other cell, the row count, the row labels and the
    columns are as before, and nothing is printed. *)
Theorem edit_data_cell (w : World) (i : Z) (c : string) (v : value) :
  pd.index (data (dataset w))
  = pd.range_index (length (pd.rows (data (dataset w)))) →
  (0 ≤ i < Z.of_nat (length (pd.rows (data (dataset w)))))%Z →
  c ∈ pd.columns (data (dataset w)) →
  safe_value v →
  ∃ w',
    edit_data i c v w = (Ok "Data edited successfully.", w') ∧
    let df := data (dataset w) in
    let df' := data (dataset w') in
    pd.columns df' = pd.columns df ∧
    pd.index df' = pd.index df ∧
    length (pd.rows df') = length (pd.rows df) ∧
    (∀ p c', iat df' p c' =
             if decide (Z.of_nat p = i ∧ c' = c) then Some (Some v)
             else iat df p c') ∧
    stdout w' = stdout w.
Proof.
  intros Hrange Hi Hc Hv. set (df := data (dataset w)) in *.
  destruct (lookup_lt_is_Some_2 (pd.rows df) (Z.to_nat i)) as [[j m] Hrow]; [lia|].
  assert (j = i) as ->.
  { apply (range_labelled_lookup df _ _ Hrange) in Hrow. simpl in Hrow. lia. }
  rewrite edit_data_run. fold df.
  destruct (at_set_present df (Z.to_nat i) i m c v) as (df' & -> & Hcols & Hrows);
    [by apply range_labelled_NoDup | done | done |].
  rewrite add_column_present in Hcols by done.
  eexists. split; [reflexivity|]. cbn [dataset data stdout].
  unfold iat, pd.index. rewrite Hcols, Hrows. repeat split.
  - apply list_eq. intros q. rewrite !list_lookup_fmap.
    destruct (decide (Z.to_nat i = q)) as [<-|Hq].
    + rewrite list_lookup_insert_eq by (by eapply lookup_lt_Some).
      by rewrite Hrow.
    + by rewrite list_lookup_insert_ne.
  - by rewrite length_insert.
  - intros p c'.
    destruct (decide (Z.to_nat i = p)) as [<-|Hp].
    + rewrite list_lookup_insert_eq by (by eapply lookup_lt_Some).
      rewrite Hrow. unfold pd.cell_of. simpl.
      destruct (decide (c' = c)) as [->|Hc'].
      * rewrite decide_True by (split; [lia|done]). by rewrite lookup_insert_eq.
      * rewrite decide_False by (intros [_ ?]; done).
        by rewrite lookup_insert_ne.
    + rewrite list_lookup_insert_ne by done.
      rewrite decide_False; [done|]. intros [? _]. apply Hp. lia.
Qed.

Lemma edit_data_cell_witness :
  ∃ w', edit_data 1 "IT" (VInt 5) w0 = (Ok "Data edited successfully.", w') ∧
        iat (data (dataset w')) 1 "IT" = Some (Some (VInt 5)) ∧
        iat (data (dataset w')) 0 "IT" = iat df0 0 "IT".
Proof.
  destruct (edit_data_cell w0 1 "IT" (VInt 5)) as (w' & Hrun & _ & _ & _ & Hcells & _).
  - by_evaluation.
  - simpl. lia.
  - by_evaluation.
  - by_evaluation.
  - exists w'. split; [exact Hrun|]. split.
    + exact (Hcells 1 "IT").
    + exact (Hcells 0 "IT").
Defined.

(** C8 as stated fails after an edit at a missing label: the table then has
    four rows labelled 0, 1, 2 and 100, the position 3 is in range, and
    [edit_data 3] adds a fifth row instead of changing the fourth. *)
Lemma edit_data_in_range_grows :
  let w1 := (edit_data 100 "date" (VStr "2023-04-30") w0).2 in
  let w2 := (edit_data 3 "IT" (VInt 1) w1).2 in
  pd.index (data (dataset w1)) = [0; 1; 2; 100]%Z ∧
  "IT" ∈ pd.columns (data (dataset w1)) ∧
  (edit_data 3 "IT" (VInt 1) w1).1 = Ok "Data edited successfully." ∧
  length (pd.rows (data (dataset w1))) = 4 ∧
  length (pd.rows (data (dataset w2))) = 5 ∧
  iat (data (dataset w2)) 3 "IT" = Some None.
Proof.
  repeat split; try by_evaluation; vm_compute; reflexivity.
Qed.

(** ** [delete_data] *)

Section drop.

Implicit Types (df : pd.DataFrame) (r : Z * gmap string value).

(** With distinct labels, dropping a label removes the one row that
    carries it. *)
Lemma drop_rows (l : list (Z * gmap string value)) (p : nat) r :
  NoDup l.*1 →
  l !! p = Some r →
  filter (λ r', r'.1 ≠ r.1) l = delete p l.
Proof.
  revert p. induction l as [|x l IH]; intros p Hnodup Hp; [done|].
  csimpl in Hnodup. apply NoDup_cons in Hnodup as [Hx Hnodup].
  destruct p as [|p]; simpl in Hp.
  - injection Hp as ->. rewrite filter_cons_False by (intros H; by apply H).
    simpl. clear IH. induction l as [|y l IH]; [done|].
    csimpl in Hx. apply not_elem_of_cons in Hx as [Hne Hx].
    apply NoDup_cons in Hnodup as [_ Hnodup].
    rewrite filter_cons_True by (intros H; by apply Hne).
    f_equal. by apply IH.
  - rewrite filter_cons_True.
    + simpl. f_equal. by apply IH.
    + intros Heq. apply Hx. rewrite Heq.
      apply list_elem_of_fmap_2. by eapply list_elem_of_lookup_2.
Qed.

Lemma drop_present df (p : nat) r :
  NoDup (pd.index df) →
  pd.rows df !! p = Some r →
  pd.drop df r.1 =
    Ok {| pd.columns := pd.columns df; pd.dtypes := pd.dtypes df;
          pd.rows := delete p (pd.rows df) |}.
Proof.
  intros Hnodup Hp. unfold pd.drop.
  rewrite decide_True.
  - by rewrite (drop_rows _ p r).
  - apply list_elem_of_fmap_2. by eapply list_elem_of_lookup_2.
Qed.

Lemma drop_missing df (i : Z) :
  i ∉ pd.index df → pd.drop df i = Raise (LabelError i).
Proof. intros Hi. unfold pd.drop. by rewrite decide_False. Qed.

End drop.

(** C3, as the code has it. On a table of [N] rows whose row labels are
    [0 .. N-1] and for [0 <= i < N], [delete_data i] answers with the
    success message and leaves [N-1] rows: the rows before position [i] are
    the same rows at the same positions, every row after position [i] has
    moved down by one position with its cells unchanged, and the labels
    are [0 .. N-2] again. The columns stay. *)
Theorem delete_data_row (w : World) (i : Z) :
  pd.index (data (dataset w))
  = pd.range_index (length (pd.rows (data (dataset w)))) →
  (0 ≤ i < Z.of_nat (length (pd.rows (data (dataset w)))))%Z →
  ∃ w',
    delete_data i w = (Ok "Data deleted successfully.", w') ∧
    let old := pd.rows (data (dataset w)) in
    let new := pd.rows (data (dataset w')) in
    S (length new) = length old ∧
    (∀ p, p < Z.to_nat i → new !! p = old !! p) ∧
    (∀ j r, Z.to_nat i < j → old !! j = Some r →
            new !! (j - 1) = Some (Z.of_nat (j - 1), r.2)) ∧
    pd.index (data (dataset w')) = pd.range_index (length old - 1) ∧
    pd.columns (data (dataset w')) = pd.columns (data (dataset w)).
Proof.
  intros Hrange Hi.
  set (df := data (dataset w)) in *.
  destruct (lookup_lt_is_Some_2 (pd.rows df) (Z.to_nat i)) as [r Hrow]; [lia|].
  assert (r.1 = i) as Hlabel.
  { rewrite (range_labelled_lookup df _ _ Hrange Hrow). lia. }
  unfold delete_data. run_method. fold df.
  rewrite <- Hlabel, (drop_present df (Z.to_nat i) r)
    by (by apply range_labelled_NoDup || done).
  eexists. split; [reflexivity|]. cbn [dataset data].
  set (kept := {| pd.columns := _; pd.dtypes := _; pd.rows := _ |}).
  assert (S (length (pd.rows kept)) = length (pd.rows df)) as Hlen.
  { subst kept. simpl. pose proof (length_delete (pd.rows df) (Z.to_nat i)) as H.
    rewrite H by eauto. apply lookup_lt_Some in Hrow. lia. }
  repeat split.
  - by rewrite reset_index_drop_length.
  - intros p Hp.
    destruct (lookup_lt_is_Some_2 (pd.rows df) p) as [r' Hr']; [lia|].
    assert (pd.rows kept !! p = Some r') as Hkept.
    { subst kept. simpl. by rewrite list_lookup_delete_lt by lia. }
    rewrite (reset_index_drop_lookup kept p r' Hkept), Hr'.
    rewrite <- (range_labelled_lookup df p r' Hrange Hr').
    by destruct r'.
  - intros j r' Hj Hr'.
    apply reset_index_drop_lookup. subst kept. simpl.
    rewrite list_lookup_delete_ge by lia.
    by replace (S (j - 1)) with j by lia.
  - rewrite reset_index_drop_index. f_equal. lia.
Qed.

Lemma delete_data_row_witness :
  ∃ w', delete_data 1 w0 = (Ok "Data deleted successfully.", w') ∧
        pd.rows (data (dataset w')) !! 0 = Some (0%Z, row0) ∧
        pd.rows (data (dataset w')) !! 1 = Some (1%Z, row2) ∧
        length (pd.rows (data (dataset w'))) = 2.
Proof.
  destruct (delete_data_row w0 1) as (w' & Hrun & Hlen & Hbefore & Hafter & _).
  - reflexivity.
  - simpl. lia.
  - exists w'. split; [exact Hrun|]. repeat split.
    + apply (Hbefore 0). simpl. lia.
    + apply (Hafter 2 (2%Z, row2)); [simpl; lia | reflexivity].
    + simpl in Hlen. lia.
Defined.

(** C3 as stated fails after an edit at a missing label: the table then has
    four rows labelled 0, 1, 2 and 100, and [delete_data 3], with 3 in
    range, raises and removes nothing. *)
Lemma delete_data_in_range_raises :
  let w1 := (edit_data 100 "date" (VStr "2023-04-30") w0).2 in
  pd.index (data (dataset w1)) = [0; 1; 2; 100]%Z ∧
  length (pd.rows (data (dataset w1))) = 4 ∧
  delete_data 3 w1 = (Raise (LabelError 3), w1).
Proof.
  repeat split; vm_compute; reflexivity.
Qed.

(** ** What [.at] does to the shape of a frame *)

Section at_set_shape.

Implicit Types (df : pd.DataFrame) (m : gmap string value).

Lemma at_set_Ok df (i : Z) (c : string) (v : value) (df' : pd.DataFrame) :
  pd.at_set df i c v = Ok df' →
  ∃ t v',
    df' = pd.write (pd.with_column
                      (if decide (i ∈ pd.index df) then df
                       else pd.reindex_append df i) c) t i c v'.
Proof.
  unfold pd.at_set. intros (t & v' & -> & _)%set_cell_Ok. by eexists _, _.
Qed.

Lemma at_set_columns df (i : Z) (c : string) (v : value) (df' : pd.DataFrame) :
  pd.at_set df i c v = Ok df' →
  pd.columns df' = pd.add_column c (pd.columns df).
Proof.
  intros (t & v' & ->)%at_set_Ok. simpl. rewrite with_column_columns.
  by destruct (decide (i ∈ pd.index df)).
Qed.

Lemma at_set_index df (i : Z) (c : string) (v : value) (df' : pd.DataFrame) :
  pd.at_set df i c v = Ok df' →
  pd.index df'
  = if decide (i ∈ pd.index df) then pd.index df else (pd.index df ++ [i])%list.
Proof.
  intros (t & v' & ->)%at_set_Ok. rewrite write_index.
  unfold pd.index. rewrite with_column_rows.
  destruct (decide (i ∈ (pd.rows df).*1)); [done|].
  unfold pd.reindex_append. cbn [pd.rows]. rewrite fmap_app. f_equal.
  rewrite <- list_fmap_compose. apply list_fmap_ext. by intros q [j m] _.
Qed.

(** No cell appears outside [c] and the cells that were there. *)
Lemma at_set_doms df (i : Z) (c : string) (v : value) (df' : pd.DataFrame)
    (cs : gset string) :
  pd.at_set df i c v = Ok df' →
  c ∈ cs →
  Forall (λ m, dom m ⊆ cs) (pd.rows df).*2 →
  Forall (λ m, dom m ⊆ cs) (pd.rows df').*2.
Proof.
  intros (t & v' & ->)%at_set_Ok Hc Hrows.
  assert (Forall (λ m, dom m ⊆ cs)
            (pd.rows (if decide (i ∈ pd.index df) then df
                      else pd.reindex_append df i)).*2) as Hrows1.
  { destruct (decide (i ∈ pd.index df)); [done|].
    unfold pd.reindex_append. cbn [pd.rows]. rewrite fmap_app.
    apply Forall_app. split.
    - rewrite <- list_fmap_compose. apply Forall_fmap.
      apply Forall_fmap in Hrows. eapply Forall_impl; [exact Hrows|].
      intros [j m] Hm. simpl in *. by rewrite recast_dom.
    - apply Forall_singleton. simpl. rewrite dom_empty_L. set_solver. }
  unfold pd.write. cbn [pd.rows]. rewrite with_column_rows.
  rewrite <- list_fmap_compose. apply Forall_fmap.
  apply Forall_fmap in Hrows1. eapply Forall_impl; [exact Hrows1|].
  intros [j m] Hm. simpl in *. destruct (decide (j = i)); simpl; [|done].
  rewrite dom_insert_L. apply union_least; [|done].
  by apply singleton_subseteq_l.
Qed.

End at_set_shape.

(** ** The column set under the mutating methods *)

Section schema.

Variable cols : list string.
Implicit Types (df : pd.DataFrame) (m : gmap string value).

Lemma union_columns_within (keys : list string) :
  Forall (λ k, k ∈ cols) keys → pd.union_columns cols keys = cols.
Proof.
  intros Hkeys. unfold pd.union_columns.
  assert (filter (λ c, c ∉ cols) keys = []) as ->; [|by rewrite app_nil_r].
  induction Hkeys as [|k keys Hk _ IH]; [done|].
  rewrite filter_cons_False; [done|]. intros Hnot. by apply Hnot.
Qed.

Lemma dict_get_keys (d : dict) (k : string) :
  is_Some (dict_get k d) ↔ k ∈ dict_keys d.
Proof.
  unfold dict_keys. induction d as [|[k' v] d IH]; csimpl.
  - split; [by intros [? ?] | by intros ?%elem_of_nil].
  - rewrite elem_of_cons, <- IH. destruct (decide (k = k')) as [->|Hne].
    + split; eauto.
    + split; [by right | by intros [?|?]].
Qed.

Lemma record_within (d : dict) :
  Forall (λ k, k ∈ cols) (dict_keys d) →
  dom (list_to_map d : gmap string value) ⊆ (list_to_set cols : gset string).
Proof.
  intros Hkeys. rewrite dom_list_to_map_L. intros k Hk.
  apply elem_of_list_to_set in Hk. apply elem_of_list_to_set.
  by apply (proj1 (Forall_forall _ _) Hkeys).
Qed.

Lemma schema_concat df (d : dict) :
  schema_holds cols df →
  Forall (λ k, k ∈ cols) (dict_keys d) →
  schema_holds cols (pd.concat_ignore_index df (pd.DataFrame_of_record d)).
Proof.
  intros [Hcols Hrows] Hkeys. split.
  - rewrite concat_columns, Hcols. by apply union_columns_within.
  - rewrite concat_contents. apply Forall_fmap. simpl. rewrite fmap_app.
    apply Forall_app. split.
    + eapply Forall_impl; [exact Hrows|]. intros m Hm. simpl.
      by rewrite recast_dom.
    + apply Forall_singleton. simpl. rewrite recast_dom. by apply record_within.
Qed.

Lemma schema_at_set df (i : Z) (c : string) (v : value) (edited : pd.DataFrame) :
  schema_holds cols df → c ∈ cols → pd.at_set df i c v = Ok edited →
  schema_holds cols edited.
Proof.
  intros [Hcols Hrows] Hc Hset. split.
  - rewrite (at_set_columns _ _ _ _ _ Hset), Hcols. by apply add_column_present.
  - eapply at_set_doms; [exact Hset| |exact Hrows]. by apply elem_of_list_to_set.
Qed.

Lemma schema_drop df (i : Z) (dropped : pd.DataFrame) :
  schema_holds cols df → pd.drop df i = Ok dropped →
  schema_holds cols (pd.reset_index_drop dropped).
Proof.
  intros [Hcols Hrows]. unfold pd.drop.
  destruct (decide (i ∈ pd.index df)); [|discriminate].
  intros [= <-]. split; [done|].
  rewrite reset_index_drop_contents. simpl.
  apply Forall_fmap. apply Forall_fmap in Hrows.
  apply Forall_forall. intros r [_ Hr]%list_elem_of_filter.
  by apply (proj1 (Forall_forall _ _) Hrows).
Qed.

(** Each mutating method that names only columns of the table leaves
    the schema in place, whether it succeeds, refuses or raises. *)
Lemma apply_mutation_schema (w : World) (o : mutation) :
  schema_holds cols (data (dataset w)) →
  within_schema cols o →
  schema_holds cols (data (dataset (apply_mutation o w).2)).
Proof.
  intros Hschema Ho. destruct o as [d|i c v|i]; cbn [apply_mutation within_schema] in *.
  - unfold add_data, dict_getitem, pd.getitem_values. run_method.
    destruct (dict_get "date" d) as [x|]; simpl; [|done].
    destruct (decide ("date" ∈ pd.columns (data (dataset w)))); simpl; [|done].
    destruct (py_in x _); simpl; [done|]. by apply schema_concat.
  - rewrite edit_data_run.
    destruct (pd.at_set (data (dataset w)) i c v) as [edited|e] eqn:Hset;
      simpl; [|done].
    by eapply schema_at_set.
  - unfold delete_data. run_method.
    destruct (pd.drop (data (dataset w)) i) as [dropped|e] eqn:Hdrop;
      simpl; [|done].
    by eapply schema_drop.
Qed.

End schema.

(** C7, as the code has it. Let the table have the columns [cols] and no
    cell outside them. After [add_data] with a mapping whose keys are all
    among [cols], after [edit_data] on a column among [cols], and after any
    [delete_data], the table still has the columns [cols] and no cell
    outside them, whatever the method answered. Moreover, when every
    integer of the table and of the mapping is at most 2^53 in magnitude,
    a mapping that names only columns of the table and brings a [date] no
    row carries is accepted though it leaves columns out: the columns stay
    [cols], and the new last row holds the mapping's values and is absent
    in every column the mapping omitted. *)
Theorem mutations_keep_schema (cols : list string) (w : World) :
  schema_holds cols (data (dataset w)) →
  (∀ o, within_schema cols o →
        schema_holds cols (data (dataset (apply_mutation o w).2))) ∧
  (∀ new_row_data d,
     Forall (λ k, k ∈ cols) (dict_keys new_row_data) →
     dict_get "date" new_row_data = Some d →
     (∀ r, r ∈ pd.rows (data (dataset w)) → pd.cell_of "date" r ≠ Some d) →
     safe_frame (data (dataset w)) →
     safe_dict new_row_data →
     ∃ w' r,
       add_data new_row_data w = (Ok "Data added successfully.", w') ∧
       pd.columns (data (dataset w')) = cols ∧
       pd.rows (data (dataset w')) !! length (pd.rows (data (dataset w))) = Some r ∧
       (∀ c, pd.cell_of c r = dict_get c new_row_data) ∧
       (∀ c, c ∉ dict_keys new_row_data → pd.cell_of c r = None)).
Proof.
  intros Hschema. split.
  - intros o Ho. by apply apply_mutation_schema.
  - intros new_row_data d Hkeys Hd Hfresh Hsafe Hdict.
    assert ("date" ∈ pd.columns (data (dataset w))) as Hcol.
    { destruct Hschema as [-> _].
      apply (proj1 (Forall_forall _ _) Hkeys), dict_get_keys. by rewrite Hd. }
    rewrite (add_data_appends w new_row_data d Hd Hcol Hfresh Hsafe Hdict).
    eexists _, _. split; [reflexivity|]. cbn [dataset data].
    split; [|split; [apply concat_record_last|split]].
    + by apply (schema_concat cols).
    + intros c. unfold pd.cell_of. simpl.
      rewrite recast_safe by (by apply safe_dict_record). apply record_lookup.
    + intros c Hc. unfold pd.cell_of. simpl.
      rewrite recast_safe by (by apply safe_dict_record). rewrite record_lookup.
      destruct (dict_get c new_row_data) eqn:Hget; [|done].
      exfalso. apply Hc, dict_get_keys. by rewrite Hget.
Qed.

(** On the sample table: a row that gives only [date] and [IT] is
    accepted, [Marketing] and [Month] are absent in it and the four columns
    stay; an edit of [IT] and a delete keep them too. *)
Lemma mutations_keep_schema_witness :
  schema_holds (pd.columns df0)
    (data (dataset (apply_mutation (UpdateCell 1 "IT" (VInt 7)) w0).2)) ∧
  schema_holds (pd.columns df0)
    (data (dataset (apply_mutation (DeleteRow 1) w0).2)) ∧
  ∃ w' r,
    add_data [("date", VStr "2023-04-30"); ("IT", VInt 32000)] w0
    = (Ok "Data added successfully.", w') ∧
    pd.columns (data (dataset w')) = pd.columns df0 ∧
    pd.rows (data (dataset w')) !! 3 = Some r ∧
    pd.cell_of "IT" r = Some (VInt 32000) ∧
    pd.cell_of "Marketing" r = None.
Proof.
  destruct (mutations_keep_schema (pd.columns df0) w0) as [Hkeep Hinsert].
  - split; [reflexivity | by_evaluation].
  - split; [|split].
    + apply (Hkeep (UpdateCell 1 "IT" (VInt 7))). simpl. by_evaluation.
    + apply (Hkeep (DeleteRow 1)). exact I.
    + destruct (Hinsert [("date", VStr "2023-04-30"); ("IT", VInt 32000)]
                  (VStr "2023-04-30"))
        as (w' & r & Hrun & Hcols & Hlast & Hgiven & Homitted).
      * by_evaluation.
      * reflexivity.
      * apply Forall_forall. by_evaluation.
      * unfold safe_frame. by_evaluation.
      * unfold safe_dict. by_evaluation.
      * exists w', r. repeat split; try assumption.
        -- exact (Hgiven "IT").
        -- apply Homitted. by_evaluation.
Defined.

(** C7 as stated fails: a mapping with a key that is no column of the
    table, and an edit of a column the table does not have, both add the
    column; a mapping without [date] is not accepted but raises. *)
Lemma mutations_add_columns :
  schema_holds (pd.columns df0) df0 ∧
  (add_data [("date", VStr "2023-04-30"); ("Bonus", VInt 1)] w0).1
  = Ok "Data added successfully." ∧
  pd.columns (data (dataset
    (add_data [("date", VStr "2023-04-30"); ("Bonus", VInt 1)] w0).2))
  = ["date"; "Month"; "IT"; "Marketing"; "Bonus"] ∧
  (edit_data 0 "Bonus" (VInt 1) w0).1 = Ok "Data edited successfully." ∧
  pd.columns (data (dataset (edit_data 0 "Bonus" (VInt 1) w0).2))
  = ["date"; "Month"; "IT"; "Marketing"; "Bonus"] ∧
  add_data [("IT", VInt 32000)] w0 = (Raise (KeyError "date"), w0).
Proof.
  split; [split; [reflexivity | by_evaluation]|].
  repeat split; vm_compute; reflexivity.
Qed.

(** ** Runs of the methods as equations *)

Lemma world_eta (w : World) :
  {| dataset := {| data := data (dataset w) |}; stdout := stdout w |} = w.
Proof. by destruct w as [[df] out]. Qed.

Lemma delete_data_run (w : World) (i : Z) :
  delete_data i w =
    match pd.drop (data (dataset w)) i with
    | Ok dropped =>
        (Ok "Data deleted successfully.",
         {| dataset := {| data := pd.reset_index_drop dropped |};
            stdout := stdout w |})
    | Raise e => (Raise e, w)
    end.
Proof.
  unfold delete_data. run_method. by destruct (pd.drop (data (dataset w)) i).
Qed.

(** Relabelling a frame that is labelled [0 .. N-1] changes nothing. *)
Lemma reset_index_drop_range (df : pd.DataFrame) :
  pd.index df = pd.range_index (length (pd.rows df)) →
  pd.reset_index_drop df = df.
Proof.
  intros Hrange. destruct df as [cols dts rws]. unfold pd.reset_index_drop.
  simpl in *. f_equal. unfold pd.index in Hrange. simpl in Hrange.
  rewrite <- Hrange. apply zip_fst_snd.
Qed.

Lemma reset_index_drop_rows (df : pd.DataFrame) (rws : list (Z * gmap string value)) :
  (pd.rows df).*2 = rws.*2 →
  rws.*1 = pd.range_index (length rws) →
  pd.rows (pd.reset_index_drop df) = rws.
Proof.
  intros Hcontents Hlabels. unfold pd.reset_index_drop. simpl.
  assert (length (pd.rows df) = length rws) as ->.
  { by rewrite <- (length_fmap snd (pd.rows df)), Hcontents, length_fmap. }
  rewrite Hcontents, <- Hlabels. apply zip_fst_snd.
Qed.

Lemma lookup_column_dtypes (t : string → dtype) (cols : list string) (c : string) :
  c ∈ cols →
  (list_to_map ((λ c', (c', t c')) <$> cols) : gmap string dtype) !! c = Some (t c).
Proof.
  induction cols as [|c0 cols IH]; intros Hc; [by apply elem_of_nil in Hc|].
  csimpl. destruct (decide (c = c0)) as [->|Hne].
  - apply lookup_insert_eq.
  - rewrite lookup_insert_ne by done. apply IH.
    by apply elem_of_cons in Hc as [?|?].
Qed.

Lemma concat_dtype_of (a b : pd.DataFrame) (c : string) :
  c ∈ pd.columns a →
  pd.dtype_of (pd.concat_ignore_index a b) c = pd.concat_dtype a b c.
Proof.
  intros Hc. unfold pd.dtype_of, pd.concat_ignore_index, pd.reset_index_drop.
  cbn [pd.dtypes]. rewrite lookup_column_dtypes; [done|].
  unfold pd.union_columns. apply elem_of_app. by left.
Qed.

(** What a column holds for a value is found in it as that value. *)
Lemma py_in_cast (x : value) (t : dtype) (cells : list cell) :
  Some (cast t x) ∈ cells → py_in x (t, cells) = true.
Proof.
  intros Hin. unfold py_in. simpl. apply existsb_exists.
  exists (Some (cast t x)). split; [by apply list_elem_of_In|].
  simpl. rewrite cast_idemp. by apply py_eq_true.
Qed.

(** ** [add_data]: errors and repetition *)

(** X1. Without a [date] in the mapping, or without a [date] column in the
    table, [add_data] raises [KeyError] for ['date'] and the world is the
    one before the call. *)
Theorem add_data_without_date (w : World) (new_row_data : dict) :
  dict_get "date" new_row_data = None ∨ "date" ∉ pd.columns (data (dataset w)) →
  add_data new_row_data w = (Raise (KeyError "date"), w).
Proof.
  intros Hmissing. unfold add_data, dict_getitem, pd.getitem_values. run_method.
  destruct (dict_get "date" new_row_data) as [d|]; simpl; [|done].
  destruct Hmissing as [?|Hcol]; [done|]. by rewrite decide_False.
Qed.

Lemma add_data_without_date_witness :
  add_data [("IT", VInt 32000); ("Month", VStr "April 2023")] w0
  = (Raise (KeyError "date"), w0).
Proof.
  apply add_data_without_date. left. reflexivity.
Defined.

(** X2. Whatever the first call answered, a second [add_data] with the
    same [date] is refused as a duplicate and changes nothing, also when
    the two mappings differ in every other field. *)
Theorem add_data_same_date_again (w : World) (first second : dict) (d : value) :
  dict_get "date" first = Some d →
  dict_get "date" second = Some d →
  "date" ∈ pd.columns (data (dataset w)) →
  add_data second (add_data first w).2
  = (Ok "Duplicate found. Data couldn't be added.", (add_data first w).2).
Proof.
  intros Hfirst Hsecond Hcol.
  rewrite (add_data_unfold w first d Hfirst Hcol).
  destruct (py_in d (pd.dtype_of (data (dataset w)) "date",
                     pd.cell_of "date" <$> pd.rows (data (dataset w)))) eqn:Hin;
    cbn [snd].
  - rewrite (add_data_unfold w second d Hsecond Hcol). by rewrite Hin.
  - set (w1 := {| dataset := _; stdout := _ |}).
    assert ("date" ∈ pd.columns (data (dataset w1))) as Hcol1.
    { simpl. unfold pd.union_columns. apply elem_of_app. by left. }
    rewrite (add_data_unfold w1 second d Hsecond Hcol1).
    rewrite py_in_cast; [done|].
    subst w1. cbn [dataset data]. rewrite concat_dtype_of by done.
    set (t := pd.concat_dtype _ _).
    apply (list_elem_of_fmap_2' _ _
             (Z.of_nat (length (pd.rows (data (dataset w)))),
              pd.recast t (list_to_map first))).
    + eapply list_elem_of_lookup_2. apply concat_record_last.
    + unfold pd.cell_of. simpl. by rewrite recast_lookup, record_lookup, Hfirst.
Qed.

Lemma add_data_same_date_again_witness :
  add_data [("date", VStr "2023-04-30"); ("IT", VInt 1)]
    (add_data [("date", VStr "2023-04-30"); ("IT", VInt 32000)] w0).2
  = (Ok "Duplicate found. Data couldn't be added.",
     (add_data [("date", VStr "2023-04-30"); ("IT", VInt 32000)] w0).2).
Proof.
  apply (add_data_same_date_again w0 _ _ (VStr "2023-04-30")).
  - reflexivity.
  - reflexivity.
  - by_evaluation.
Defined.

(** ** [delete_data]: labels, bounds and round trips *)

Lemma delete_last {A} (l : list A) (x : A) :
  delete (length l) (l ++ [x])%list = l.
Proof. by rewrite delete_middle, app_nil_r. Qed.

(** X3. On a table labelled [0 .. N-1], with every integer of the table
    and of the mapping at most 2^53 in magnitude, an [add_data] that is
    accepted and names only columns of the table is undone by
    [delete_data N]: the table has again the columns and the rows, with
    their labels and cells, that it had before the insert. *)
Theorem add_then_delete (w : World) (new_row_data : dict) (d : value) :
  pd.index (data (dataset w))
  = pd.range_index (length (pd.rows (data (dataset w)))) →
  Forall (λ k, k ∈ pd.columns (data (dataset w))) (dict_keys new_row_data) →
  dict_get "date" new_row_data = Some d →
  (∀ r, r ∈ pd.rows (data (dataset w)) → pd.cell_of "date" r ≠ Some d) →
  safe_frame (data (dataset w)) →
  safe_dict new_row_data →
  ∃ w',
    delete_data (Z.of_nat (length (pd.rows (data (dataset w)))))
      (add_data new_row_data w).2
    = (Ok "Data deleted successfully.", w') ∧
    pd.columns (data (dataset w')) = pd.columns (data (dataset w)) ∧
    pd.rows (data (dataset w')) = pd.rows (data (dataset w)) ∧
    stdout w' = stdout w.
Proof.
  intros Hrange Hkeys Hd Hfresh Hsafe Hdict.
  assert ("date" ∈ pd.columns (data (dataset w))) as Hcol.
  { apply (proj1 (Forall_forall _ _) Hkeys), dict_get_keys. by rewrite Hd. }
  rewrite (add_data_appends w new_row_data d Hd Hcol Hfresh Hsafe Hdict). cbn [snd].
  rewrite delete_data_run. cbn [dataset data stdout].
  set (df := data (dataset w)) in *.
  set (df1 := pd.concat_ignore_index df (pd.DataFrame_of_record new_row_data)).
  set (n := length (pd.rows df)) in *.
  assert (pd.rows df1 !! n = Some (Z.of_nat n,
            pd.recast (pd.concat_dtype df (pd.DataFrame_of_record new_row_data))
              (list_to_map new_row_data))) as Hlast
    by apply concat_record_last.
  assert (NoDup (pd.index df1)) as Hnodup.
  { subst df1. rewrite concat_index. apply NoDup_seqZ. }
  pose proof (drop_present df1 n _ Hnodup Hlast) as Hdrop. cbn [fst] in Hdrop.
  rewrite Hdrop. eexists. split; [reflexivity|]. cbn [dataset data stdout].
  split; [|split; [|done]].
  - cbn [pd.reset_index_drop pd.columns]. subst df1. rewrite concat_columns.
    by apply union_columns_within.
  - apply reset_index_drop_rows; cbn [pd.rows]; [|done].
    rewrite list_fmap_delete. subst df1.
    rewrite concat_record_safe by done.
    subst n. rewrite <- (length_fmap snd (pd.rows df)). apply delete_last.
Qed.

Lemma add_then_delete_witness :
  ∃ w', delete_data 3
          (add_data [("date", VStr "2023-04-30"); ("IT", VInt 32000)] w0).2
        = (Ok "Data deleted successfully.", w') ∧
        pd.rows (data (dataset w')) = pd.rows df0.
Proof.
  destruct (add_then_delete w0 [("date", VStr "2023-04-30"); ("IT", VInt 32000)]
              (VStr "2023-04-30")) as (w' & Hrun & _ & Hrows & _).
  - reflexivity.
  - by_evaluation.
  - reflexivity.
  - apply Forall_forall. by_evaluation.
  - unfold safe_frame. by_evaluation.
  - unfold safe_dict. by_evaluation.
  - exists w'. split; assumption.
Defined.

(** X4. On a table labelled [0 .. N-1], [delete_data] with a negative
    index or an index of [N] or more raises [KeyError] and removes nothing:
    a negative index does not count from the end. *)
Theorem delete_data_out_of_range (w : World) (i : Z) :
  pd.index (data (dataset w))
  = pd.range_index (length (pd.rows (data (dataset w)))) →
  (i < 0 ∨ Z.of_nat (length (pd.rows (data (dataset w)))) ≤ i)%Z →
  delete_data i w = (Raise (LabelError i), w).
Proof.
  intros Hrange Hi. rewrite delete_data_run, drop_missing; [done|].
  rewrite (range_labelled_elem _ i Hrange). lia.
Qed.

Lemma delete_data_out_of_range_witness :
  delete_data (-1) w0 = (Raise (LabelError (-1)), w0).
Proof.
  apply delete_data_out_of_range.
  - reflexivity.
  - left. reflexivity.
Defined.

(** X5. [delete_data] goes by label: when the labels are pairwise distinct
    and the row at position [p] carries the label [i], [delete_data i]
    removes exactly that row; the rows before it keep their position, the
    rows after it move down by one, all keep their cells, the labels become
    [0 .. N-2] and the columns stay. *)
Theorem delete_data_by_label (w : World) (p : nat) (i : Z) (m : gmap string value) :
  NoDup (pd.index (data (dataset w))) →
  pd.rows (data (dataset w)) !! p = Some (i, m) →
  ∃ w',
    delete_data i w = (Ok "Data deleted successfully.", w') ∧
    let old := pd.rows (data (dataset w)) in
    let new := pd.rows (data (dataset w')) in
    S (length new) = length old ∧
    (∀ q r, q < p → old !! q = Some r → new !! q = Some (Z.of_nat q, r.2)) ∧
    (∀ q r, p < q → old !! q = Some r →
            new !! (q - 1) = Some (Z.of_nat (q - 1), r.2)) ∧
    pd.index (data (dataset w')) = pd.range_index (length old - 1) ∧
    pd.columns (data (dataset w')) = pd.columns (data (dataset w)).
Proof.
  intros Hnodup Hrow. rewrite delete_data_run.
  pose proof (drop_present _ p _ Hnodup Hrow) as Hdrop. simpl in Hdrop.
  rewrite Hdrop. eexists. split; [reflexivity|]. cbn [dataset data].
  set (kept := {| pd.columns := _; pd.dtypes := _; pd.rows := _ |}).
  assert (length (pd.rows kept) = length (pd.rows (data (dataset w))) - 1) as Hlen.
  { subst kept. simpl. apply length_delete. eauto. }
  pose proof (lookup_lt_Some _ _ _ Hrow) as Hp.
  repeat split.
  - rewrite reset_index_drop_length. lia.
  - intros q r Hq Hr. apply reset_index_drop_lookup. subst kept. simpl.
    by rewrite list_lookup_delete_lt.
  - intros q r Hq Hr. apply reset_index_drop_lookup. subst kept. simpl.
    rewrite list_lookup_delete_ge by lia.
    by replace (S (q - 1)) with q by lia.
  - by rewrite reset_index_drop_index, Hlen.
Qed.

(** After an edit at the missing label 100 the sample table has the labels
    0, 1, 2, 100; [delete_data 100] removes the fourth row. *)
Lemma delete_data_by_label_witness :
  ∃ w', delete_data 100 (edit_data 100 "date" (VStr "2023-04-30") w0).2
        = (Ok "Data deleted successfully.", w') ∧
        length (pd.rows (data (dataset w'))) = 3.
Proof.
  destruct (delete_data_by_label (edit_data 100 "date" (VStr "2023-04-30") w0).2
              3 100 {["date" := VStr "2023-04-30"]})
    as (w' & Hrun & Hlen & _).
  - by_evaluation.
  - reflexivity.
  - exists w'. split; [exact Hrun|].
    assert (length (pd.rows (data (dataset
              (edit_data 100 "date" (VStr "2023-04-30") w0).2))) = 4) as Hfour
      by (vm_compute; reflexivity).
    cbv zeta in Hlen. rewrite Hfour in Hlen. lia.
Defined.

(** X8. On a table labelled [0 .. N-1] whose integers are at most 2^53 in
    magnitude, an [edit_data] at a label the table does not have, in a
    column it has, with a text or such an integer, is undone by
    [delete_data] of that label: the table has again the columns and the
    rows, with their labels and cells, that it had before the edit. *)
Theorem edit_missing_then_delete (w : World) (i : Z) (c : string) (v : value) :
  pd.index (data (dataset w))
  = pd.range_index (length (pd.rows (data (dataset w)))) →
  i ∉ pd.index (data (dataset w)) →
  c ∈ pd.columns (data (dataset w)) →
  safe_frame (data (dataset w)) →
  safe_value v →
  ∃ w',
    delete_data i (edit_data i c v w).2 = (Ok "Data deleted successfully.", w') ∧
    pd.columns (data (dataset w')) = pd.columns (data (dataset w)) ∧
    pd.rows (data (dataset w')) = pd.rows (data (dataset w)) ∧
    stdout w' = stdout w.
Proof.
  intros Hrange Hi Hc Hsafe Hv. rewrite edit_data_run.
  destruct (at_set_missing _ i c v Hi Hv) as (df1 & -> & Hcols & Hrows).
  cbn [snd]. rewrite delete_data_run. cbn [dataset data stdout].
  set (df := data (dataset w)) in *.
  rewrite recast_rows_safe in Hrows by done.
  rewrite add_column_present in Hcols by done.
  assert (NoDup (pd.index df1)) as Hnodup.
  { unfold pd.index. rewrite Hrows, fmap_app. apply NoDup_app.
    split; [by apply range_labelled_NoDup|]. split; [|apply NoDup_singleton].
    intros j Hj Hji. simpl in Hji. apply list_elem_of_singleton in Hji.
    by subst j. }
  assert (pd.rows df1 !! length (pd.rows df) = Some (i, {[c := v]})) as Hlast.
  { rewrite Hrows. by rewrite lookup_app_r, Nat.sub_diag. }
  pose proof (drop_present df1 _ _ Hnodup Hlast) as Hdrop. cbn [fst] in Hdrop.
  rewrite Hdrop. eexists. split; [reflexivity|]. cbn [dataset data stdout].
  split; [done|]. split; [|done].
  apply reset_index_drop_rows; cbn [pd.rows]; [|done].
  by rewrite Hrows, delete_last.
Qed.

Lemma edit_missing_then_delete_witness :
  ∃ w', delete_data 7 (edit_data 7 "IT" (VInt 1) w0).2
        = (Ok "Data deleted successfully.", w') ∧
        pd.rows (data (dataset w')) = pd.rows df0.
Proof.
  destruct (edit_missing_then_delete w0 7 "IT" (VInt 1)) as (w' & Hrun & _ & Hrows & _).
  - reflexivity.
  - by_evaluation.
  - by_evaluation.
  - unfold safe_frame. by_evaluation.
  - by_evaluation.
  - exists w'. split; assumption.
Defined.

(** ** [edit_data]: labels, new columns and repeated edits *)

Lemma add_column_twice (c : string) (cols : list string) :
  pd.add_column c (pd.add_column c cols) = pd.add_column c cols.
Proof.
  destruct (decide (c ∈ cols)) as [Hc|Hc].
  - by rewrite !(add_column_present c cols).
  - assert (pd.add_column c cols = (cols ++ [c])%list) as ->.
    { unfold pd.add_column. by rewrite decide_False. }
    apply add_column_present. apply elem_of_app. right. by left.
Qed.

(** [.at] on a present label and a value held exactly, whether or not the
    labels are distinct: every row that carries the label is written. *)
Lemma at_set_label_present (df : pd.DataFrame) (i : Z) (c : string) (v : value) :
  i ∈ pd.index df →
  safe_value v →
  ∃ df', pd.at_set df i c v = Ok df' ∧
         pd.columns df' = pd.add_column c (pd.columns df) ∧
         pd.rows df' =
           (λ r : Z * gmap string value,
              if decide (r.1 = i) then (r.1, <[c := v]> r.2) else r) <$> pd.rows df.
Proof.
  intros Hi Hv. unfold pd.at_set. rewrite decide_True by done.
  destruct (set_cell_safe (pd.with_column df c) i c v Hv) as [t ->].
  eexists. split; [reflexivity|]. split.
  - simpl. apply with_column_columns.
  - unfold pd.write. cbn [pd.rows]. by rewrite with_column_rows.
Qed.

(** X6. [edit_data] goes by label: when the labels are pairwise distinct
    and the row at position [p] carries the label [i], [edit_data i c v],
    for a text or an integer of at most 2^53 in magnitude, sets the cell of
    that row in column [c] and no other cell. For a column the table has,
    the columns stay; a column it does not have is appended as a new last
    column. Labels and row count stay, nothing is printed. *)
Theorem edit_data_by_label (w : World) (p : nat) (i : Z) (m : gmap string value)
    (c : string) (v : value) :
  NoDup (pd.index (data (dataset w))) →
  pd.rows (data (dataset w)) !! p = Some (i, m) →
  safe_value v →
  ∃ w',
    edit_data i c v w = (Ok "Data edited successfully.", w') ∧
    let df := data (dataset w) in
    let df' := data (dataset w') in
    (c ∈ pd.columns df → pd.columns df' = pd.columns df) ∧
    (c ∉ pd.columns df → pd.columns df' = (pd.columns df ++ [c])%list) ∧
    pd.index df' = pd.index df ∧
    (∀ q c', iat df' q c' =
             if decide (q = p ∧ c' = c) then Some (Some v) else iat df q c') ∧
    stdout w' = stdout w.
Proof.
  intros Hnodup Hrow Hv. rewrite edit_data_run.
  destruct (at_set_present _ p i m c v Hnodup Hrow Hv) as (df' & -> & Hcols & Hrows).
  eexists. split; [reflexivity|]. cbn [dataset data stdout].
  unfold iat, pd.index. rewrite Hcols, Hrows.
  pose proof (lookup_lt_Some _ _ _ Hrow) as Hp.
  repeat split.
  - apply add_column_present.
  - intros Hc. unfold pd.add_column. by rewrite decide_False.
  - rewrite list_fmap_insert. simpl.
    apply list_insert_id. by rewrite list_lookup_fmap, Hrow.
  - intros q c'.
    destruct (decide (p = q)) as [<-|Hq].
    + rewrite list_lookup_insert_eq by done.
      unfold pd.cell_of. simpl.
      destruct (decide (c' = c)) as [->|Hc'].
      * rewrite decide_True by done. by rewrite lookup_insert_eq.
      * rewrite decide_False by (intros [_ ?]; done).
        rewrite lookup_insert_ne by done. by rewrite Hrow.
    + rewrite list_lookup_insert_ne by done.
      rewrite decide_False; [done|]. intros [? _]. by apply Hq.
Qed.

(** On the sample table an edit of the unknown column [Bonus] in row 1
    appends the column and leaves the other rows without a [Bonus]. *)
Lemma edit_data_by_label_witness :
  ∃ w', edit_data 1 "Bonus" (VInt 500) w0 = (Ok "Data edited successfully.", w') ∧
        pd.columns (data (dataset w')) = ["date"; "Month"; "IT"; "Marketing"; "Bonus"] ∧
        iat (data (dataset w')) 1 "Bonus" = Some (Some (VInt 500)) ∧
        iat (data (dataset w')) 0 "Bonus" = Some None.
Proof.
  destruct (edit_data_by_label w0 1 1 row1 "Bonus" (VInt 500))
    as (w' & Hrun & _ & Hnew & _ & Hcells & _).
  - by_evaluation.
  - reflexivity.
  - by_evaluation.
  - exists w'. split; [exact Hrun|]. split; [|split].
    + apply Hnew. by_evaluation.
    + exact (Hcells 1 "Bonus").
    + exact (Hcells 0 "Bonus").
Defined.

(** X7. The last write wins: for texts and integers of at most 2^53 in
    magnitude, two [edit_data] on the same label and column give the
    answer, the columns and the rows that the second one alone gives, on
    every table and for every label, present or not. *)
Theorem edit_data_last_write_wins (w : World) (i : Z) (c : string) (v1 v2 : value) :
  safe_value v1 →
  safe_value v2 →
  let twice := edit_data i c v2 (edit_data i c v1 w).2 in
  let once := edit_data i c v2 w in
  twice.1 = once.1 ∧
  pd.columns (data (dataset twice.2)) = pd.columns (data (dataset once.2)) ∧
  pd.rows (data (dataset twice.2)) = pd.rows (data (dataset once.2)) ∧
  stdout twice.2 = stdout once.2.
Proof.
  intros Hv1 Hv2. cbv zeta. rewrite !edit_data_run.
  set (df := data (dataset w)).
  destruct (decide (i ∈ pd.index df)) as [Hi|Hi].
  - destruct (at_set_label_present df i c v1 Hi Hv1) as (df1 & -> & Hcols1 & Hrows1).
    destruct (at_set_label_present df i c v2 Hi Hv2) as (df2 & -> & Hcols2 & Hrows2).
    cbn [snd dataset data stdout].
    assert (i ∈ pd.index df1) as Hi1.
    { unfold pd.index in *. rewrite Hrows1, <- list_fmap_compose.
      erewrite list_fmap_ext; [exact Hi|]. intros q [j m] _. simpl.
      by destruct (decide (j = i)). }
    destruct (at_set_label_present df1 i c v2 Hi1 Hv2) as (df3 & -> & Hcols3 & Hrows3).
    cbn [fst snd dataset data stdout].
    rewrite Hcols3, Hcols1, Hcols2, Hrows3, Hrows1, Hrows2, add_column_twice.
    repeat split. rewrite <- list_fmap_compose.
    apply list_fmap_ext. intros q [j m] _. simpl.
    destruct (decide (j = i)) as [->|Hj]; simpl.
    + rewrite decide_True by done. by rewrite insert_insert_eq.
    + by rewrite decide_False.
  - destruct (at_set_missing df i c v1 Hi Hv1) as (df1 & -> & Hcols1 & Hrows1).
    destruct (at_set_missing df i c v2 Hi Hv2) as (df2 & -> & Hcols2 & Hrows2).
    cbn [snd dataset data stdout].
    assert (i ∈ pd.index df1) as Hi1.
    { unfold pd.index. rewrite Hrows1, fmap_app. apply elem_of_app. right. by left. }
    destruct (at_set_label_present df1 i c v2 Hi1 Hv2) as (df3 & -> & Hcols3 & Hrows3).
    cbn [fst snd dataset data stdout].
    rewrite Hcols3, Hcols1, Hcols2, Hrows3, Hrows1, Hrows2, add_column_twice.
    repeat split. rewrite fmap_app. f_equal.
    + apply write_rows_absent. rewrite <- list_fmap_compose.
      unfold pd.index in Hi. erewrite list_fmap_ext; [exact Hi|]. by intros q [j m] _.
    + simpl. rewrite decide_True by done. by rewrite insert_singleton_eq.
Qed.

Lemma edit_data_last_write_wins_witness :
  (edit_data 1 "IT" (VInt 7) (edit_data 1 "IT" (VStr "n/a") w0).2).1
  = (edit_data 1 "IT" (VInt 7) w0).1 ∧
  pd.rows (data (dataset (edit_data 1 "IT" (VInt 7)
                            (edit_data 1 "IT" (VStr "n/a") w0).2).2))
  = pd.rows (data (dataset (edit_data 1 "IT" (VInt 7) w0).2)).
Proof.
  destruct (edit_data_last_write_wins w0 1 "IT" (VStr "n/a") (VInt 7))
    as (Hanswer & _ & Hrows & _).
  - exact I.
  - by_evaluation.
  - split; assumption.
Defined.

(** ** What every mutating method keeps *)

Lemma reset_index_drop_NoDup (df : pd.DataFrame) :
  NoDup (pd.index (pd.reset_index_drop df)).
Proof. rewrite reset_index_drop_index. apply NoDup_seqZ. Qed.

Lemma union_columns_NoDup (a b : list string) :
  NoDup a → NoDup b → NoDup (pd.union_columns a b).
Proof.
  intros Ha Hb. unfold pd.union_columns. apply NoDup_app. split; [done|]. split.
  - intros x Hx [Hnot _]%list_elem_of_filter. by apply Hnot.
  - by apply NoDup_filter.
Qed.

Lemma add_column_NoDup (c : string) (cols : list string) :
  NoDup cols → NoDup (pd.add_column c cols).
Proof.
  intros Hcols. unfold pd.add_column. destruct (decide (c ∈ cols)); [done|].
  apply NoDup_app. split; [done|]. split; [|apply NoDup_singleton].
  intros x Hx ->%list_elem_of_singleton. done.
Qed.

Lemma cells_within_mono (cols cols' : list string) (contents : list (gmap string value)) :
  (∀ c, c ∈ cols → c ∈ cols') →
  Forall (λ m : gmap string value, dom m ⊆ (list_to_set cols : gset string)) contents →
  Forall (λ m : gmap string value, dom m ⊆ (list_to_set cols' : gset string)) contents.
Proof.
  intros Hsub Hcells. eapply Forall_impl; [exact Hcells|]. intros m Hm k Hk.
  apply elem_of_list_to_set. apply Hsub.
  apply (elem_of_list_to_set (C := gset string)). by apply Hm.
Qed.

Lemma union_columns_elem (a b : list string) (c : string) :
  c ∈ pd.union_columns a b ↔ c ∈ a ∨ c ∈ b.
Proof.
  unfold pd.union_columns. rewrite elem_of_app, list_elem_of_filter.
  destruct (decide (c ∈ a)); tauto.
Qed.

Lemma add_column_elem (c c' : string) (cols : list string) :
  c' ∈ pd.add_column c cols ↔ c' = c ∨ c' ∈ cols.
Proof.
  unfold pd.add_column. destruct (decide (c ∈ cols)).
  - split; [by right | by intros [->|?]].
  - rewrite elem_of_app, list_elem_of_singleton. tauto.
Qed.

Lemma concat_columns_sound (df : pd.DataFrame) (d : dict) :
  columns_sound df → NoDup (dict_keys d) →
  columns_sound (pd.concat_ignore_index df (pd.DataFrame_of_record d)).
Proof.
  intros [Hnodup Hcells] Hkeys. split.
  - rewrite concat_columns. by apply union_columns_NoDup.
  - unfold cells_within. rewrite concat_contents, concat_columns.
    apply Forall_fmap. simpl. rewrite fmap_app. apply Forall_app. split.
    + assert (Forall (λ m : gmap string value,
                        dom m ⊆ (list_to_set
                                   (pd.union_columns (pd.columns df) (dict_keys d))
                                 : gset string))
                (pd.rows df).*2) as Hold.
      { eapply cells_within_mono; [|exact Hcells].
        intros c Hc. apply union_columns_elem. by left. }
      eapply Forall_impl; [exact Hold|]. intros m Hm. simpl.
      by rewrite recast_dom.
    + apply Forall_singleton. simpl. rewrite recast_dom, dom_list_to_map_L.
      intros k Hk. apply elem_of_list_to_set in Hk.
      apply elem_of_list_to_set, union_columns_elem. by right.
Qed.

Lemma at_set_columns_sound (df : pd.DataFrame) (i : Z) (c : string) (v : value)
    (edited : pd.DataFrame) :
  columns_sound df → pd.at_set df i c v = Ok edited → columns_sound edited.
Proof.
  intros [Hnodup Hcells] Hset.
  pose proof (at_set_columns _ _ _ _ _ Hset) as Hcols.
  split; [rewrite Hcols; by apply add_column_NoDup|].
  unfold cells_within. rewrite Hcols.
  eapply at_set_doms; [exact Hset| |].
  - apply elem_of_list_to_set, add_column_elem. by left.
  - eapply cells_within_mono; [|exact Hcells].
    intros c' Hc'. apply add_column_elem. by right.
Qed.

Lemma drop_columns_sound (df dropped : pd.DataFrame) (i : Z) :
  columns_sound df → pd.drop df i = Ok dropped →
  columns_sound (pd.reset_index_drop dropped).
Proof.
  intros [Hnodup Hcells]. unfold pd.drop.
  destruct (decide (i ∈ pd.index df)); [|discriminate].
  intros [= <-]. split; [done|]. unfold cells_within.
  rewrite reset_index_drop_contents. cbn [pd.columns pd.rows].
  apply Forall_fmap. apply Forall_fmap in Hcells.
  apply Forall_forall. intros r [_ Hr]%list_elem_of_filter.
  by apply (proj1 (Forall_forall _ _) Hcells).
Qed.

(** One request keeps the row labels pairwise distinct. *)
Lemma labels_distinct_step (w : World) (o : mutation) :
  NoDup (pd.index (data (dataset w))) →
  NoDup (pd.index (data (dataset (apply_mutation o w).2))).
Proof.
  intros Hnodup. destruct o as [d|i c v|i]; cbn [apply_mutation].
  - unfold add_data, dict_getitem, pd.getitem_values. run_method.
    destruct (dict_get "date" d) as [x|]; simpl; [|done].
    destruct (decide ("date" ∈ pd.columns (data (dataset w)))); simpl; [|done].
    destruct (py_in x _); simpl; [done|]. apply reset_index_drop_NoDup.
  - rewrite edit_data_run.
    destruct (pd.at_set (data (dataset w)) i c v) as [edited|e] eqn:Hset;
      cbn [snd dataset data]; [|done].
    rewrite (at_set_index _ _ _ _ _ Hset).
    destruct (decide (i ∈ pd.index (data (dataset w)))) as [Hi|Hi]; [done|].
    apply NoDup_app. split; [done|]. split; [|apply NoDup_singleton].
    intros j Hj ->%list_elem_of_singleton. done.
  - rewrite delete_data_run.
    destruct (pd.drop (data (dataset w)) i); simpl; [|done].
    apply reset_index_drop_NoDup.
Qed.

(** One request with distinct keys keeps the columns sound. *)
Lemma columns_sound_step (w : World) (o : mutation) :
  columns_sound (data (dataset w)) →
  proper_request o →
  columns_sound (data (dataset (apply_mutation o w).2)).
Proof.
  intros Hsound Ho. destruct o as [d|i c v|i]; cbn [apply_mutation proper_request] in *.
  - unfold add_data, dict_getitem, pd.getitem_values. run_method.
    destruct (dict_get "date" d) as [x|]; simpl; [|done].
    destruct (decide ("date" ∈ pd.columns (data (dataset w)))); simpl; [|done].
    destruct (py_in x _); simpl; [done|]. by apply concat_columns_sound.
  - rewrite edit_data_run.
    destruct (pd.at_set (data (dataset w)) i c v) as [edited|e] eqn:Hset;
      cbn [snd dataset data]; [|done].
    by eapply at_set_columns_sound.
  - rewrite delete_data_run.
    destruct (pd.drop (data (dataset w)) i) as [dropped|e] eqn:Hdrop;
      simpl; [|done].
    by eapply drop_columns_sound.
Qed.

(** One request leaves the old columns as an initial segment. *)
Lemma columns_prefix_step (w : World) (o : mutation) :
  pd.columns (data (dataset w))
    `prefix_of` pd.columns (data (dataset (apply_mutation o w).2)).
Proof.
  destruct o as [d|i c v|i]; cbn [apply_mutation].
  - unfold add_data, dict_getitem, pd.getitem_values. run_method.
    destruct (dict_get "date" d) as [x|]; simpl; [|done].
    destruct (decide ("date" ∈ pd.columns (data (dataset w)))); simpl; [|done].
    destruct (py_in x _); simpl; [done|]. by eexists.
  - rewrite edit_data_run.
    destruct (pd.at_set (data (dataset w)) i c v) as [edited|e] eqn:Hset;
      cbn [snd dataset data]; [|done].
    rewrite (at_set_columns _ _ _ _ _ Hset).
    unfold pd.add_column. destruct (decide (c ∈ _)); [done | by eexists].
  - rewrite delete_data_run.
    destruct (pd.drop (data (dataset w)) i) as [dropped|e] eqn:Hdrop;
      simpl; [|done].
    unfold pd.drop in Hdrop. destruct (decide (i ∈ _)); [|discriminate].
    by injection Hdrop as <-.
Qed.

(** ** Sessions *)

Lemma run_all_snoc (requests : list mutation) (o : mutation) (w : World) :
  run_all (requests ++ [o]) w = (apply_mutation o (run_all requests w)).2.
Proof. unfold run_all. by rewrite foldl_app. Qed.

(** X9. Row labels stay pairwise distinct through a whole session: if they
    are distinct at the start, they are distinct after any sequence of
    [add_data], [edit_data] and [delete_data], whatever the arguments and
    whatever each call answered. *)
Theorem labels_stay_distinct (requests : list mutation) (w : World) :
  NoDup (pd.index (data (dataset w))) →
  NoDup (pd.index (data (dataset (run_all requests w)))).
Proof.
  intros Hstart. induction requests as [|o requests IH] using rev_ind; [done|].
  rewrite run_all_snoc. by apply labels_distinct_step.
Qed.

Lemma labels_stay_distinct_witness :
  NoDup (pd.index (data (dataset
    (run_all [UpdateCell 100 "date" (VStr "2023-04-30"); DeleteRow 1;
              UpdateCell 7 "IT" (VInt 1)] w0)))).
Proof.
  apply labels_stay_distinct. by_evaluation.
Defined.

(** X10. Column names stay pairwise distinct and no cell lies outside the
    columns through a whole session, also when requests name columns the
    table does not have; the mappings inserted have distinct keys, as
    Python dictionaries do. *)
Theorem columns_stay_sound (requests : list mutation) (w : World) :
  columns_sound (data (dataset w)) →
  Forall proper_request requests →
  columns_sound (data (dataset (run_all requests w))).
Proof.
  intros Hstart. induction requests as [|o requests IH] using rev_ind;
    intros Hproper; [done|].
  apply Forall_app in Hproper as [Hrequests Ho].
  rewrite run_all_snoc. apply columns_sound_step; [by apply IH|].
  by apply (Forall_singleton proper_request).
Qed.

Lemma columns_stay_sound_witness :
  columns_sound (data (dataset
    (run_all [InsertRow [("date", VStr "2023-04-30"); ("Bonus", VInt 1)];
              UpdateCell 0 "Notes" (VStr "checked")] w0))).
Proof.
  apply columns_stay_sound.
  - split; by_evaluation.
  - apply Forall_cons. split; [simpl; by_evaluation|].
    apply Forall_cons. split; [exact I | apply Forall_nil_2].
Defined.

(** X11. No session removes or reorders a column: the columns at the start
    are an initial segment of the columns after any sequence of
    [add_data], [edit_data] and [delete_data]. *)
Theorem columns_only_grow (requests : list mutation) (w : World) :
  pd.columns (data (dataset w))
    `prefix_of` pd.columns (data (dataset (run_all requests w))).
Proof.
  induction requests as [|o requests IH] using rev_ind; [done|].
  rewrite run_all_snoc. etrans; [exact IH|]. apply columns_prefix_step.
Qed.

(** ** [Dataset.__init__] *)

(** X20. [Dataset.__init__] accepts a frame exactly when it has the four
    columns [date], [revenue], [product] and [discounts]; otherwise it
    raises [KeyError] for the first of them, in that order, that the frame
    lacks. *)
Theorem Dataset_init_required_columns (df : pd.DataFrame) :
  Dataset_init df =
    match filter (λ c, c ∉ pd.columns df) required_columns with
    | [] => Ok {| data := df |}
    | c :: _ => Raise (KeyError c)
    end.
Proof.
  unfold Dataset_init, required_columns, pd.getitem_values.
  rewrite !filter_cons, filter_nil.
  destruct (decide ("date" ∈ pd.columns df)) as [?|?]; simpl;
    destruct (decide ("date" ∉ pd.columns df)) as [?|?]; try done.
  destruct (decide ("revenue" ∈ pd.columns df)) as [?|?]; simpl;
    destruct (decide ("revenue" ∉ pd.columns df)) as [?|?]; try done.
  destruct (decide ("product" ∈ pd.columns df)) as [?|?]; simpl;
    destruct (decide ("product" ∉ pd.columns df)) as [?|?]; try done.
  destruct (decide ("discounts" ∈ pd.columns df)) as [?|?]; simpl;
    destruct (decide ("discounts" ∉ pd.columns df)) as [?|?]; done.
Qed.

(** X21. The columns [Dataset.__init__] asked for are there for good:
    after a successful start and any session, the table still has [date],
    [revenue], [product] and [discounts], so [add_data] never fails for
    want of the [date] column. *)
Theorem required_columns_persist (df : pd.DataFrame) (ds : Dataset)
    (requests : list mutation) (out : list string) (c : string) :
  Dataset_init df = Ok ds →
  c ∈ required_columns →
  c ∈ pd.columns (data (dataset (run_all requests {| dataset := ds; stdout := out |}))).
Proof.
  intros Hinit Hc.
  assert (c ∈ pd.columns (data ds)) as Hstart.
  { revert Hinit. unfold Dataset_init, pd.getitem_values.
    repeat (destruct (decide (_ ∈ pd.columns df)); simpl; [|discriminate]).
    intros [= <-]. simpl. unfold required_columns in Hc.
    repeat (apply elem_of_cons in Hc as [->|Hc]; [done|]).
    by apply elem_of_nil in Hc. }
  induction requests as [|o requests IH] using rev_ind; [done|].
  rewrite run_all_snoc.
  destruct (columns_prefix_step (run_all requests {| dataset := ds; stdout := out |}) o)
    as [more ->].
  apply elem_of_app. by left.
Qed.

Lemma required_columns_persist_witness :
  "date" ∈ pd.columns (data (dataset
    (run_all [DeleteRow 0; UpdateCell 5 "Notes" (VStr "late");
              InsertRow [("date", VStr "2023-04-30")]]
       {| dataset := {| data := full_df |}; stdout := [] |}))).
Proof.
  apply (required_columns_persist full_df).
  - vm_compute. reflexivity.
  - by_evaluation.
Defined.

(** ** [DataManager.__new__] *)

Lemma construct_all_held {D} (datasets : list D) (held : DataManager D) :
  Forall (λ m, m = held) (construct_all datasets (Some held)).
Proof.
  induction datasets as [|d datasets IH]; simpl; [done|]. by constructor.
Qed.

(** X22. [DataManager] is created once: however many times it is called
    and with whatever datasets, every manager returned is the first one
    and manages the dataset of the first call; a later dataset is never
    taken up. *)
Theorem DataManager_first_dataset {D} (first : D) (later : list D) :
  Forall (λ m, managed m = first) (construct_all (first :: later) None).
Proof.
  simpl. constructor; [done|].
  eapply Forall_impl; [apply construct_all_held|]. by intros m ->.
Qed.

(** ** [filter_data]: the other filters, errors and purity *)

Lemma select_sublist {A} (mask : list bool) (l : list A) :
  pd.select mask l `sublist_of` l.
Proof.
  revert mask. induction l as [|x l IH]; intros [|b mask]; simpl;
    try apply sublist_nil_l.
  destruct b; [by apply sublist_skip | by apply sublist_cons].
Qed.

Lemma mapM_compare_text (op : Z → bool) (cells : list cell) (s : string) :
  Some (VStr s) ∈ cells →
  result_mapM (pd.compare_cell op) cells = Raise TypeError.
Proof.
  induction cells as [|x cells IH]; intros Hin; [by apply elem_of_nil in Hin|].
  apply elem_of_cons in Hin as [<-|Hin]; [done|]. simpl.
  rewrite (IH Hin). by destruct x as [[z|t]|].
Qed.

Lemma query_compare_text (df : pd.DataFrame) (c : string) (op : Z → bool) :
  c ∈ pd.columns df →
  (∃ r s, r ∈ pd.rows df ∧ pd.cell_of c r = Some (VStr s)) →
  pd.query_compare df c op = Raise TypeError.
Proof.
  intros Hc (r & s & Hr & Hcell). unfold pd.query_compare.
  rewrite decide_True by done.
  rewrite (mapM_compare_text op _ s); [done|].
  rewrite <- Hcell. by apply list_elem_of_fmap_2.
Qed.

Lemma query_notnull_rows (df : pd.DataFrame) (c : string) :
  c ∈ pd.columns df →
  pd.query_notnull df c =
    Ok {| pd.columns := pd.columns df;
          pd.dtypes := pd.dtypes df;
          pd.rows := filter (λ r, is_Some (pd.cell_of c r)) (pd.rows df) |}.
Proof.
  intros Hc. unfold pd.query_notnull. rewrite decide_True by done.
  simpl. do 2 f_equal. rewrite <- list_fmap_compose, select_mask.
  apply list_filter_iff. intros r. simpl. apply bool_decide_eq_true.
Qed.

Lemma query_isin_rows (df : pd.DataFrame) (c : string) (texts : list string) :
  c ∈ pd.columns df →
  pd.query_isin df c texts =
    Ok {| pd.columns := pd.columns df;
          pd.dtypes := pd.dtypes df;
          pd.rows := filter (λ r, pd.cell_isin texts (pd.cell_of c r) = true)
                       (pd.rows df) |}.
Proof.
  intros Hc. unfold pd.query_isin. rewrite decide_True by done.
  simpl. do 2 f_equal. by rewrite <- list_fmap_compose, select_mask.
Qed.

(** Opens [filter_data] at each of its six branches. *)
Ltac filter_cases choice :=
  unfold filter_data;
  destruct (decide (choice = 1%Z)) as [->|?];
    [|destruct (decide (choice = 2%Z)) as [->|?];
      [|destruct (decide (choice = 3%Z)) as [->|?];
        [|destruct (decide (choice = 4%Z)) as [->|?];
          [|destruct (decide (choice = 5%Z)) as [->|?]]]]];
  run_method.

(** X12. Whatever [filter_data] returns as a frame is a part of the table:
    it has the table's columns, its rows are rows of the table, in the
    table's order and under the table's labels, and the world is the one
    before the call. *)
Theorem filter_data_subtable (w w' : World) (choice : Z) (filtered_data : pd.DataFrame) :
  filter_data choice w = (Ok (Some filtered_data), w') →
  w' = w ∧
  pd.columns filtered_data = pd.columns (data (dataset w)) ∧
  pd.rows filtered_data `sublist_of` pd.rows (data (dataset w)).
Proof.
  filter_cases choice; [..|discriminate];
    unfold pd.query_compare, pd.query_notnull, pd.query_isin;
    (destruct (decide (_ ∈ pd.columns (data (dataset w)))); simpl; [|discriminate]);
    try (destruct (result_mapM _ _) as [mask|err]; simpl; [|discriminate]);
    intros [= <- <-]; (split; [done|]); (split; [done|]);
    apply select_sublist.
Qed.

(** Filter 4 on the second sample table keeps the rows 0 and 2. *)
Lemma filter_data_subtable_witness :
  [(0%Z, full_row0); (2%Z, full_row2)] `sublist_of` pd.rows full_df.
Proof.
  destruct (filter_data_subtable full_w full_w 4
              {| pd.columns := pd.columns full_df;
                 pd.dtypes := pd.dtypes full_df;
                 pd.rows := [(0%Z, full_row0); (2%Z, full_row2)] |})
    as (_ & _ & Hsub).
  - vm_compute. reflexivity.
  - exact Hsub.
Defined.

(** X13. For the choices 1 to 5 [filter_data] leaves the world as it was,
    dataset and output, whether it returns a frame or raises. *)
Theorem filter_data_keeps_world (w : World) (choice : Z) :
  (1 ≤ choice ≤ 5)%Z →
  (filter_data choice w).2 = w.
Proof.
  intros Hchoice. filter_cases choice; [..|lia];
    unfold pd.query_compare, pd.query_notnull, pd.query_isin;
    (destruct (decide (_ ∈ pd.columns (data (dataset w)))); simpl; [|done]);
    try (by destruct (result_mapM _ _)); done.
Qed.

Lemma filter_data_keeps_world_witness :
  (filter_data 2 w0).2 = w0 ∧ (filter_data 3 w0).2 = w0.
Proof.
  split; apply filter_data_keeps_world; lia.
Defined.

(** X14. A filter whose column the table does not have raises
    [UndefinedVariableError] for that column name: [IT] for 1, [Marketing]
    for 2, [Finance] for 3, [Operations] for 4, [Month] for 5. *)
Theorem filter_data_missing_column (w : World) (choice : Z) (c : string) :
  filter_column choice = Some c →
  c ∉ pd.columns (data (dataset w)) →
  filter_data choice w = (Raise (UndefinedVariableError c), w).
Proof.
  unfold filter_column. filter_cases choice;
    rewrite ?decide_True, ?decide_False by done; [..|discriminate];
    intros [= <-] Hc;
    unfold pd.query_compare, pd.query_notnull, pd.query_isin;
    by rewrite decide_False.
Qed.

(** The first sample table has no [Finance] column. *)
Lemma filter_data_missing_column_witness :
  filter_data 3 w0 = (Raise (UndefinedVariableError "Finance"), w0).
Proof.
  apply filter_data_missing_column.
  - reflexivity.
  - by_evaluation.
Defined.

(** X15. One text in the compared column makes the filters 1, 2 and 4
    fail as a whole: [filter_data] raises [TypeError] and returns no rows
    at all, not even those whose cell is a number. *)
Theorem filter_data_text_in_column (w : World) (choice : Z) (c : string) :
  compares_numbers choice →
  filter_column choice = Some c →
  c ∈ pd.columns (data (dataset w)) →
  (∃ r s, r ∈ pd.rows (data (dataset w)) ∧ pd.cell_of c r = Some (VStr s)) →
  filter_data choice w = (Raise TypeError, w).
Proof.
  intros [->| [->| ->]] [= <-] Hc Htext; unfold filter_data; simpl; run_method;
    by rewrite query_compare_text.
Qed.

(** After [edit_data 0 "IT" "n/a"] the filter on [IT] raises. *)
Lemma filter_data_text_in_column_witness :
  filter_data 1 (edit_data 0 "IT" (VStr "n/a") w0).2
  = (Raise TypeError, (edit_data 0 "IT" (VStr "n/a") w0).2).
Proof.
  apply (filter_data_text_in_column _ 1 "IT").
  - by left.
  - reflexivity.
  - by_evaluation.
  - exists (0%Z, <["IT" := VStr "n/a"]> row0), "n/a". split.
    + by_evaluation.
    + by_evaluation.
Defined.

(** X16. On a table with a numeric [Marketing] column, [filter_data 2]
    returns exactly the rows whose [Marketing] value is below 22000; the
    value 22000 itself and rows without a value are left out. *)
Theorem filter_data_Marketing (w : World) :
  "Marketing" ∈ pd.columns (data (dataset w)) →
  Forall (λ r, numeric_cell (pd.cell_of "Marketing" r)) (pd.rows (data (dataset w))) →
  ∃ filtered_data,
    filter_data 2 w = (Ok (Some filtered_data), w) ∧
    pd.columns filtered_data = pd.columns (data (dataset w)) ∧
    pd.dtypes filtered_data = pd.dtypes (data (dataset w)) ∧
    pd.rows filtered_data = filter Marketing_below_22000 (pd.rows (data (dataset w))).
Proof.
  intros Hcol Hnum. unfold filter_data. simpl. run_method.
  rewrite (query_compare_numeric _ _ _ Hcol Hnum). simpl.
  eexists; split; [reflexivity|]. split; [done|]. split; [done|]. simpl.
  apply list_filter_iff. intros r. unfold Marketing_below_22000, holds_on_cell.
  destruct (pd.cell_of "Marketing" r) as [[z|s]|]; try (split; [discriminate|done]).
  apply Z.ltb_lt.
Qed.

(** [Marketing] values 21000, 22000 and 23000: only the first row is kept. *)
Lemma filter_data_Marketing_witness :
  filter_data 2 full_w
  = (Ok (Some {| pd.columns := pd.columns full_df;
                 pd.dtypes := pd.dtypes full_df;
                 pd.rows := [(0%Z, full_row0)] |}), full_w).
Proof.
  destruct (filter_data_Marketing full_w) as ([cols dts rws] & Hrun & Hcols & Hdts & Hrows).
  - by_evaluation.
  - by_evaluation.
  - rewrite Hrun. simpl in Hcols, Hdts, Hrows. rewrite Hcols, Hdts, Hrows.
    reflexivity.
Defined.

(** X17. On a table with a numeric [Operations] column, [filter_data 4]
    returns exactly the rows whose [Operations] value lies between 25000
    and 30000, both bounds included. *)
Theorem filter_data_Operations (w : World) :
  "Operations" ∈ pd.columns (data (dataset w)) →
  Forall (λ r, numeric_cell (pd.cell_of "Operations" r)) (pd.rows (data (dataset w))) →
  ∃ filtered_data,
    filter_data 4 w = (Ok (Some filtered_data), w) ∧
    pd.columns filtered_data = pd.columns (data (dataset w)) ∧
    pd.dtypes filtered_data = pd.dtypes (data (dataset w)) ∧
    pd.rows filtered_data = filter Operations_in_range (pd.rows (data (dataset w))).
Proof.
  intros Hcol Hnum. unfold filter_data. simpl. run_method.
  rewrite (query_compare_numeric _ _ _ Hcol Hnum). simpl.
  eexists; split; [reflexivity|]. split; [done|]. split; [done|]. simpl.
  apply list_filter_iff. intros r. unfold Operations_in_range, holds_on_cell.
  destruct (pd.cell_of "Operations" r) as [[z|s]|]; try (split; [discriminate|done]).
  rewrite andb_true_iff, Z.leb_le, Z.leb_le. done.
Qed.

(** [Operations] values 25000, 30001 and 30000: the first and the last row
    are kept. *)
Lemma filter_data_Operations_witness :
  filter_data 4 full_w
  = (Ok (Some {| pd.columns := pd.columns full_df;
                 pd.dtypes := pd.dtypes full_df;
                 pd.rows := [(0%Z, full_row0); (2%Z, full_row2)] |}), full_w).
Proof.
  destruct (filter_data_Operations full_w) as ([cols dts rws] & Hrun & Hcols & Hdts & Hrows).
  - by_evaluation.
  - by_evaluation.
  - rewrite Hrun. simpl in Hcols, Hdts, Hrows. rewrite Hcols, Hdts, Hrows.
    reflexivity.
Defined.

(** X18. On a table with a [Finance] column, [filter_data 3] returns
    exactly the rows that have a [Finance] cell, be it a number or a text;
    it does not raise. *)
Theorem filter_data_Finance (w : World) :
  "Finance" ∈ pd.columns (data (dataset w)) →
  ∃ filtered_data,
    filter_data 3 w = (Ok (Some filtered_data), w) ∧
    pd.columns filtered_data = pd.columns (data (dataset w)) ∧
    pd.dtypes filtered_data = pd.dtypes (data (dataset w)) ∧
    pd.rows filtered_data = filter Finance_present (pd.rows (data (dataset w))).
Proof.
  intros Hcol. unfold filter_data. simpl. run_method.
  rewrite (query_notnull_rows _ _ Hcol). simpl.
  eexists; split; [reflexivity|]. by repeat split.
Qed.

(** The middle row of the second sample table has no [Finance] cell. *)
Lemma filter_data_Finance_witness :
  filter_data 3 full_w
  = (Ok (Some {| pd.columns := pd.columns full_df;
                 pd.dtypes := pd.dtypes full_df;
                 pd.rows := [(0%Z, full_row0); (2%Z, full_row2)] |}), full_w).
Proof.
  destruct (filter_data_Finance full_w) as ([cols dts rws] & Hrun & Hcols & Hdts & Hrows).
  - by_evaluation.
  - rewrite Hrun. simpl in Hcols, Hdts, Hrows. rewrite Hcols, Hdts, Hrows.
    reflexivity.
Defined.

(** X19. On a table with a [Month] column, [filter_data 5] returns exactly
    the rows whose [Month] cell is the text [January 2023] or the text
    [March 2023]; cells that are numbers or absent are passed over and
    nothing raises. *)
Theorem filter_data_Month (w : World) :
  "Month" ∈ pd.columns (data (dataset w)) →
  ∃ filtered_data,
    filter_data 5 w = (Ok (Some filtered_data), w) ∧
    pd.columns filtered_data = pd.columns (data (dataset w)) ∧
    pd.dtypes filtered_data = pd.dtypes (data (dataset w)) ∧
    pd.rows filtered_data = filter Month_selected (pd.rows (data (dataset w))).
Proof.
  intros Hcol. unfold filter_data. simpl. run_method.
  rewrite (query_isin_rows _ _ _ Hcol). simpl.
  eexists; split; [reflexivity|]. split; [done|]. split; [done|]. simpl.
  apply list_filter_iff. intros r. unfold Month_selected, pd.cell_isin.
  destruct (pd.cell_of "Month" r) as [[z|s]|].
  - split; [discriminate | by intros [?|?]].
  - rewrite bool_decide_eq_true, !elem_of_cons, elem_of_nil.
    split; [intros [->|[->|[]]]; auto | intros [[= ->]|[= ->]]; auto].
  - split; [discriminate | by intros [?|?]].
Qed.

Lemma filter_data_Month_witness :
  filter_data 5 full_w
  = (Ok (Some {| pd.columns := pd.columns full_df;
                 pd.dtypes := pd.dtypes full_df;
                 pd.rows := [(0%Z, full_row0); (2%Z, full_row2)] |}), full_w).
Proof.
  destruct (filter_data_Month full_w) as ([cols dts rws] & Hrun & Hcols & Hdts & Hrows).
  - by_evaluation.
  - rewrite Hrun. simpl in Hcols, Hdts, Hrows. rewrite Hcols, Hdts, Hrows.
    reflexivity.
Defined.
